(** * dataclass_io: the delimited-text reader

    A shallow embedding of [dataclass_io/reader.py] together with the parts
    of the Python runtime it drives (text-mode file iteration, [str.strip],
    [str.split], [str.startswith], [csv.DictReader] with the [excel] dialect),
    followed by the properties of the reader.

    Text is modelled as [string] over the code points 0..255. *)

From Stdlib Require Import ZArith Ascii String List Lia Bool DecimalString.
From stdpp Require Import base option list gmap strings fin_maps.

Local Open Scope string_scope.
Local Open Scope list_scope.
Local Open Scope Z_scope.

(** ** Exceptions and fallible results *)

Inductive exn : Type :=
| StopIteration
| ValueError (msg : string)
| TypeError (msg : string)
| KeyError (key : string)
| FileNotFoundError (path : string)
| IsADirectoryError (path : string)
| PermissionError (path : string)
| CsvError (msg : string).

Inductive result (A : Type) : Type :=
| Ok (a : A)
| Raise (e : exn).

Arguments Ok {A} a.
Arguments Raise {A} e.

Definition rbind {A B : Type} (r : result A) (k : A -> result B) : result B :=
  match r with
  | Ok a => k a
  | Raise e => Raise e
  end.

Notation "'let!' x ':=' r 'in' k" := (rbind r (fun x => k))
  (at level 10, x name, r at level 100, k at level 200).

(** ** Python [str] operations used by the reader *)

Module Str.

Definition LF : ascii := "010"%char.
Definition CR : ascii := "013"%char.
Definition TAB : ascii := "009"%char.
Definition DQUOTE : ascii := "034"%char.

(** [str.isspace] for one character, on the code points below 256. *)
Definition isspace (c : ascii) : bool :=
  match N_of_ascii c with
  | 9 | 10 | 11 | 12 | 13 | 28 | 29 | 30 | 31 | 32 | 133 | 160 => true
  | _ => false
  end%N.

Fixpoint lstrip (s : string) : string :=
  match s with
  | EmptyString => EmptyString
  | String c s' => if isspace c then lstrip s' else s
  end.

Fixpoint rstrip (s : string) : string :=
  match s with
  | EmptyString => EmptyString
  | String c s' =>
      match rstrip s' with
      | EmptyString => if isspace c then EmptyString else String c EmptyString
      | r => String c r
      end
  end.

(** [s.strip()] *)
Definition strip (s : string) : string := rstrip (lstrip s).

(** [s.startswith(p)] *)
Definition startswith (s p : string) : bool := String.prefix p s.

(** The scan of [s.split(sep)] for a non-empty [sep]: [skip] counts the
    characters of a separator occurrence still to be passed over, [cur]
    is the piece being collected. *)
Fixpoint split_go (sep s : string) (skip : nat) (cur : string) : list string :=
  match s with
  | EmptyString => [cur]
  | String c s' =>
      match skip with
      | S k => split_go sep s' k cur
      | O =>
          if String.prefix sep s
          then cur :: split_go sep s' (String.length sep - 1) EmptyString
          else split_go sep s' O (cur +:+ String c EmptyString)
      end
  end.

(** [s.split(sep)]; an empty separator is refused. *)
Definition split (s sep : string) : result (list string) :=
  match sep with
  | EmptyString => Raise (ValueError "empty separator")
  | _ => Ok (split_go sep s O EmptyString)
  end.

(** [sep.join(l)] *)
Fixpoint join (sep : string) (l : list string) : string :=
  match l with
  | [] => EmptyString
  | [x] => x
  | x :: l' => x +:+ sep +:+ join sep l'
  end.

Definition hexdigit (n : N) : ascii :=
  ascii_of_N (if (n <? 10)%N then 48 + n else 87 + n)%N.

(** [str.isprintable] for one character, on the code points below 256. *)
Definition isprintable (c : ascii) : bool :=
  let n := N_of_ascii c in
  negb ((n <? 32)%N || ((127 <=? n)%N && (n <=? 160)%N) || (n =? 173)%N).

Fixpoint contains (c : ascii) (s : string) : bool :=
  match s with
  | EmptyString => false
  | String c' s' => Ascii.eqb c c' || contains c s'
  end.

Fixpoint repr_body (q : ascii) (s : string) : string :=
  match s with
  | EmptyString => EmptyString
  | String c s' =>
      (if Ascii.eqb c q || Ascii.eqb c "\"%char then String "\"%char (String c EmptyString)
       else if Ascii.eqb c TAB then "\t"
       else if Ascii.eqb c LF then "\n"
       else if Ascii.eqb c CR then "\r"
       else if isprintable c then String c EmptyString
       else String "\"%char (String "x"%char
              (String (hexdigit (N_of_ascii c / 16)) (String (hexdigit (N_of_ascii c mod 16)) EmptyString))))
      +:+ repr_body q s'
  end.

(** [repr(s)] *)
Definition repr (s : string) : string :=
  let q := if contains "'"%char s && negb (contains DQUOTE s)
           then DQUOTE else "'"%char in
  String q (repr_body q s) +:+ String q EmptyString.

End Str.

(** ** Text-mode files *)

Module TextIO.

(** An open text stream: the lines not yet handed out, and whether the
    stream has been closed. *)
Record t : Type := mk { lines : list string; closed : bool }.

(** The lines of a text read with universal newlines: CR LF and a lone
    CR both end a line and are delivered as LF. [after_cr] is set when
    the previous character was a CR. *)
Fixpoint readlines_go (s : string) (after_cr : bool) (cur : string) : list string :=
  match s with
  | EmptyString => match cur with EmptyString => [] | _ => [cur] end
  | String c s' =>
      if Ascii.eqb c Str.LF then
        if after_cr then readlines_go s' false cur
        else (cur +:+ String Str.LF EmptyString) :: readlines_go s' false EmptyString
      else if Ascii.eqb c Str.CR then
        (cur +:+ String Str.LF EmptyString) :: readlines_go s' true EmptyString
      else readlines_go s' false (cur +:+ String c EmptyString)
  end.

Definition readlines (contents : string) : list string :=
  readlines_go contents false EmptyString.

(** [open(path, "r")] on a regular file with the given text. *)
Definition of_contents (contents : string) : t :=
  {| lines := readlines contents; closed := false |}.

(** [next(f)] *)
Definition next (f : t) : result string * t :=
  if closed f then (Raise (ValueError "I/O operation on closed file."), f)
  else match lines f with
       | [] => (Raise StopIteration, f)
       | l :: ls => (Ok l, {| lines := ls; closed := false |})
       end.

(** [f.close()] *)
Definition close (f : t) : t := {| lines := lines f; closed := true |}.

End TextIO.

(** ** The header *)

Record FileHeader : Type := mkFileHeader {
  preface : list string;
  fieldnames : list string
}.

(** ** The [csv] module: reader of the [excel] dialect

    [csv.DictReader(f, fieldnames=..., delimiter=...)] runs the reader of
    [_csv] with the [excel] dialect and the given delimiter: quotechar
    [DQUOTE], doublequote on, no escapechar, no skipinitialspace, not
    strict, minimal quoting. The parser below is the character automaton
    of [_csv] at these settings; its escape states cannot be entered and
    are left out. *)

Module csv.

Inductive ParserState : Type :=
| START_RECORD | START_FIELD | IN_FIELD | IN_QUOTED_FIELD
| QUOTE_IN_QUOTED_FIELD | EAT_CRNL.

Definition ParserState_eqb (a b : ParserState) : bool :=
  match a, b with
  | START_RECORD, START_RECORD | START_FIELD, START_FIELD
  | IN_FIELD, IN_FIELD | IN_QUOTED_FIELD, IN_QUOTED_FIELD
  | QUOTE_IN_QUOTED_FIELD, QUOTE_IN_QUOTED_FIELD | EAT_CRNL, EAT_CRNL => true
  | _, _ => false
  end.

Record parser : Type := mkParser {
  state : ParserState;
  fields : list string;   (* fields of the record completed so far *)
  field : string          (* the field being collected *)
}.

Definition quotechar : ascii := Str.DQUOTE.

(** [csv.field_size_limit()] *)
Definition field_limit : N := 131072.

Definition parse_reset : parser :=
  {| state := START_RECORD; fields := []; field := EmptyString |}.

Definition set_state (p : parser) (st : ParserState) : parser :=
  {| state := st; fields := fields p; field := field p |}.

Definition parse_save_field (p : parser) : parser :=
  {| state := state p; fields := fields p ++ [field p]; field := EmptyString |}.

Definition parse_add_char (p : parser) (c : ascii) : result parser :=
  if (field_limit <=? N.of_nat (String.length (field p)))%N
  then Raise (CsvError "field larger than field limit (131072)")
  else Ok {| state := state p; fields := fields p;
             field := field p +:+ String c EmptyString |}.

Definition is_newline (c : ascii) : bool :=
  Ascii.eqb c Str.LF || Ascii.eqb c Str.CR.

(** One step of the automaton; [None] is the end-of-line marker fed
    after the last character of each line. *)
Definition parse_process_char (delimiter : ascii) (p : parser)
    (c : option ascii) : result parser :=
  let start_field (p : parser) : result parser :=
    match c with
    | None => Ok (set_state (parse_save_field p) START_RECORD)
    | Some ch =>
        if is_newline ch then Ok (set_state (parse_save_field p) EAT_CRNL)
        else if Ascii.eqb ch quotechar then Ok (set_state p IN_QUOTED_FIELD)
        else if Ascii.eqb ch delimiter then Ok (parse_save_field p)
        else let! p' := parse_add_char p ch in Ok (set_state p' IN_FIELD)
    end in
  match state p with
  | START_RECORD =>
      match c with
      | None => Ok p
      | Some ch =>
          if is_newline ch then Ok (set_state p EAT_CRNL)
          else start_field (set_state p START_FIELD)
      end
  | START_FIELD => start_field p
  | IN_FIELD =>
      match c with
      | None => Ok (set_state (parse_save_field p) START_RECORD)
      | Some ch =>
          if is_newline ch then Ok (set_state (parse_save_field p) EAT_CRNL)
          else if Ascii.eqb ch delimiter
          then Ok (set_state (parse_save_field p) START_FIELD)
          else parse_add_char p ch
      end
  | IN_QUOTED_FIELD =>
      match c with
      | None => Ok p
      | Some ch =>
          if Ascii.eqb ch quotechar then Ok (set_state p QUOTE_IN_QUOTED_FIELD)
          else parse_add_char p ch
      end
  | QUOTE_IN_QUOTED_FIELD =>
      match c with
      | None => Ok (set_state (parse_save_field p) START_RECORD)
      | Some ch =>
          if Ascii.eqb ch quotechar
          then let! p' := parse_add_char p ch in Ok (set_state p' IN_QUOTED_FIELD)
          else if Ascii.eqb ch delimiter
          then Ok (set_state (parse_save_field p) START_FIELD)
          else if is_newline ch then Ok (set_state (parse_save_field p) EAT_CRNL)
          else let! p' := parse_add_char p ch in Ok (set_state p' IN_FIELD)
      end
  | EAT_CRNL =>
      match c with
      | None => Ok (set_state p START_RECORD)
      | Some ch =>
          if is_newline ch then Ok p
          else Raise (CsvError "new-line character seen in unquoted field - do you need to open the file in universal-newline mode?")
      end
  end.

(** The characters of one line, in order. *)
Fixpoint process_line (delimiter : ascii) (p : parser) (line : string) : result parser :=
  match line with
  | EmptyString => Ok p
  | String c line' =>
      let! p' := parse_process_char delimiter p (Some c) in
      process_line delimiter p' line'
  end.

(** The loop of [Reader_iternext] over the lines the stream still holds:
    lines are pulled until the automaton is back in [START_RECORD]. At
    the end of the input an unfinished field is still delivered. The
    second component is what is left of the stream. *)
Fixpoint iternext_loop (delimiter : ascii) (p : parser) (lines : list string)
    : result (list string) * list string :=
  match lines with
  | [] =>
      if negb (String.eqb (field p) EmptyString)
         || ParserState_eqb (state p) IN_QUOTED_FIELD
      then (Ok (fields (parse_save_field p)), [])
      else (Raise StopIteration, [])
  | line :: rest =>
      match (let! p1 := process_line delimiter p line in
             parse_process_char delimiter p1 None) with
      | Raise e => (Raise e, rest)
      | Ok p2 =>
          if ParserState_eqb (state p2) START_RECORD
          then (Ok (fields p2), rest)
          else iternext_loop delimiter p2 rest
      end
  end.

(** [next(reader)] for a [_csv.reader] over the stream [f]. Every pull of
    a line goes through [TextIO.next], which refuses a closed stream. *)
Definition Reader_iternext (delimiter : ascii) (f : TextIO.t)
    : result (list string) * TextIO.t :=
  if TextIO.closed f
  then (Raise (ValueError "I/O operation on closed file."), f)
  else let '(r, rest) := iternext_loop delimiter parse_reset (TextIO.lines f) in
       (r, {| TextIO.lines := rest; TextIO.closed := false |}).

End csv.

(** Entering key-value pairs into a dictionary one after the other, as
    [dict(pairs)] does from the empty dictionary: a later pair replaces an
    earlier one with the same key. *)
Definition dict_update {K V : Type} `{Countable K} (d : gmap K V) (pairs : list (K * V))
    : gmap K V :=
  foldl (fun d kv => <[kv.1 := kv.2]> d) d pairs.

(** A value stored in a row dictionary of [DictReader]: a cell, the
    [restval] filler [None], or the list of surplus cells. *)
Inductive rowval : Type :=
| RStr (s : string)
| RNone
| RList (l : list string).

Module DictReader.

(** [restkey] and [restval] are left at their default [None]; the key
    [None] of a row dictionary is the [restkey]. *)
Record t : Type := mk {
  fieldnames : list string;
  delimiter : ascii
}.

(** [DictReader(f, fieldnames=fieldnames, delimiter=delimiter)] *)
Definition new (fieldnames : list string) (delimiter : string) : result t :=
  match delimiter with
  | String c EmptyString => Ok {| fieldnames := fieldnames; delimiter := c |}
  | _ => Raise (TypeError (String Str.DQUOTE "delimiter"
                 +:+ String Str.DQUOTE " must be a 1-character string"))
  end.

(** [row = next(self.reader)] followed by
    [while row == []: row = next(self.reader)]; [fuel] bounds the number
    of empty rows passed over, and [None] means the bound was reached. *)
Fixpoint next_row (fuel : nat) (delimiter : ascii) (f : TextIO.t)
    : option (result (list string) * TextIO.t) :=
  match csv.Reader_iternext delimiter f with
  | (Ok [], f') =>
      match fuel with
      | O => None
      | S fuel' => next_row fuel' delimiter f'
      end
  | other => Some other
  end.

(** [dict(zip(fieldnames, row))] *)
Definition zip_dict (fieldnames row : list string) : gmap (option string) rowval :=
  dict_update ∅ (zip (Some <$> fieldnames) (RStr <$> row)).

(** [for key in keys: d[key] = restval] *)
Definition fill_rest (d : gmap (option string) rowval) (keys : list string)
    : gmap (option string) rowval :=
  foldl (fun d key => <[Some key := RNone]> d) d keys.

Definition row_dict (fieldnames row : list string) : gmap (option string) rowval :=
  let d := zip_dict fieldnames row in
  let lf := length fieldnames in
  let lr := length row in
  if (lf <? lr)%nat then <[None := RList (drop lf row)]> d
  else if (lr <? lf)%nat then fill_rest d (drop lr fieldnames)
  else d.

(** [next(dict_reader)]. Every row the reader returns has used up a
    line, so the number of lines left bounds the empty rows to pass over
    (lemma [next_row_enough] below): the last case does not arise. *)
Definition next (r : t) (f : TextIO.t)
    : result (gmap (option string) rowval) * TextIO.t :=
  match next_row (length (TextIO.lines f)) (delimiter r) f with
  | Some (Ok row, f') => (Ok (row_dict (fieldnames r) row), f')
  | Some (Raise e, f') => (Raise e, f')
  | None => (Raise StopIteration, f)
  end.

End DictReader.

(** ** Values, and the builtin types used as field types *)

Inductive pyval : Type :=
| VNone
| VInt (z : Z)
| VStr (s : string).

Module Builtins.

(** The characters [int] accepts as blanks around a literal. *)
Definition int_space (c : ascii) : bool :=
  match N_of_ascii c with
  | 9 | 10 | 11 | 12 | 13 | 32 | 133 | 160 => true
  | _ => false
  end%N.

Definition digit (c : ascii) : option Z :=
  let n := N_of_ascii c in
  if ((48 <=? n) && (n <=? 57))%N then Some (Z.of_N n - 48) else None.

Fixpoint skip_space (s : string) : string :=
  match s with
  | String c s' => if int_space c then skip_space s' else s
  | EmptyString => EmptyString
  end.

(** The digit scan of a decimal literal: digits, with single underscores
    between digits. Returns the value, the number of digits and the text
    after the literal, or [None] on a misplaced underscore. *)
Fixpoint scan_digits (s : string) (acc : Z) (count : N) (after_digit : bool)
    : option (Z * N * string) :=
  match s with
  | EmptyString => if after_digit || (count =? 0)%N then Some (acc, count, s) else None
  | String c s' =>
      match digit c with
      | Some d => scan_digits s' (10 * acc + d) (count + 1)%N true
      | None =>
          if Ascii.eqb c "_"%char
          then if after_digit then scan_digits s' acc count false else None
          else if after_digit || (count =? 0)%N then Some (acc, count, s) else None
      end
  end.

Definition max_str_digits : N := 4300.

Definition invalid_literal (s : string) : exn :=
  ValueError ("invalid literal for int() with base 10: "
              +:+ String.substring 0 200 (Str.repr s)).

Definition int_of_string (s : string) : result Z :=
  let s1 := skip_space s in
  let '(neg, s2) :=
    match s1 with
    | String "+"%char r => (false, r)
    | String "-"%char r => (true, r)
    | _ => (false, s1)
    end in
  match scan_digits s2 0 0%N false with
  | None => Raise (invalid_literal s)
  | Some (v, count, rest) =>
      if (count =? 0)%N then Raise (invalid_literal s)
      else if (max_str_digits <? count)%N then
        Raise (ValueError ("Exceeds the limit (4300 digits) for integer string conversion: value has "
               +:+ NilEmpty.string_of_uint (N.to_uint count)
               +:+ " digits; use sys.set_int_max_str_digits() to increase the limit"))
      else match skip_space rest with
           | EmptyString => Ok (if neg then - v else v)
           | _ => Raise (invalid_literal s)
           end
  end.

(** [int(x)] on a row value *)
Definition int (x : rowval) : result pyval :=
  match x with
  | RStr s => let! z := int_of_string s in Ok (VInt z)
  | RNone => Raise (TypeError "int() argument must be a string, a bytes-like object or a real number, not 'NoneType'")
  | RList _ => Raise (TypeError "int() argument must be a string, a bytes-like object or a real number, not 'list'")
  end.

(** [str(x)] on a row value *)
Definition str (x : rowval) : result pyval :=
  match x with
  | RStr s => Ok (VStr s)
  | RNone => Ok (VStr "None")
  | RList l => Ok (VStr ("[" +:+ Str.join ", " (map Str.repr l) +:+ "]"))
  end.

End Builtins.

(** ** Record types *)

Module Field.
(** A declared field: its name and its type, called on a row value. *)
Record t : Type := mk {
  name : string;
  type : rowval -> result pyval
}.
End Field.

(** A dataclass: [__name__] and the declared fields in order, as
    [dataclasses.fields] returns them. *)
Record dataclass : Type := mkDataclass {
  __name__ : string;
  fields : list Field.t
}.

(** What a caller may pass as [dataclass_type]. *)
Inductive pytype : Type :=
| Dataclass (dc : dataclass)
| NotADataclass (type_name : string).

(** An instance of a dataclass: the class name and the attributes in
    field order. *)
Record instance : Type := mkInstance {
  cls : string;
  attrs : list (string * pyval)
}.

Fixpoint mapM {A B : Type} (f : A -> result B) (l : list A) : result (list B) :=
  match l with
  | [] => Ok []
  | x :: l' => let! y := f x in let! ys := mapM f l' in Ok (y :: ys)
  end.

Definition field_names (dc : dataclass) : list string := Field.name <$> fields dc.

(** the call of [dataclass_type] with the keyword arguments [kwargs], for a dataclass whose fields all take part in
    [__init__] and have no defaults. *)
Definition construct (dc : dataclass) (kwargs : gmap string pyval) : result instance :=
  if bool_decide (dom kwargs ⊆ list_to_set (field_names dc))
  then
    let! vs := mapM (fun f : Field.t =>
                       match kwargs !! Field.name f with
                       | Some v => Ok (Field.name f, v)
                       | None => Raise (TypeError (__name__ dc
                                   +:+ ".__init__() missing required argument: "
                                   +:+ Str.repr (Field.name f)))
                       end) (fields dc) in
    Ok {| cls := __name__ dc; attrs := vs |}
  else Raise (TypeError (__name__ dc +:+ ".__init__() got an unexpected keyword argument")).

(** ** The file system seen by the reader *)

Inductive fs_entry : Type :=
| Directory
| RegularFile (readable : bool) (contents : string).

(** Modelled from the spec: [assert_file_is_readable] of
    [dataclass_io/_lib/assertions.py] is not part of the source tree. The
    specification gives its three failures: the path does not exist, it is
    a directory, it cannot be read. *)
Definition assert_file_is_readable (fs : gmap string fs_entry) (path : string)
    : result unit :=
  match fs !! path with
  | None => Raise (FileNotFoundError path)
  | Some Directory => Raise (IsADirectoryError path)
  | Some (RegularFile false _) => Raise (PermissionError path)
  | Some (RegularFile true _) => Ok tt
  end.

(** Modelled from the spec: [assert_dataclass_is_valid] of
    [dataclass_io/_lib/assertions.py] is not part of the source tree. The
    specification gives its failure: [TypeError] for a type that is not a
    dataclass. Field types are callables by construction of [Field.t]. The
    dataclass it accepts is what the constructor goes on with. *)
Definition assert_dataclass_is_valid (dataclass_type : pytype) : result dataclass :=
  match dataclass_type with
  | Dataclass dc => Ok dc
  | NotADataclass n => Raise (TypeError (n +:+ " is not a dataclass"))
  end.

(** [path.open("r")] *)
Definition path_open (fs : gmap string fs_entry) (path : string) : result TextIO.t :=
  match fs !! path with
  | None => Raise (FileNotFoundError path)
  | Some Directory => Raise (IsADirectoryError path)
  | Some (RegularFile false _) => Raise (PermissionError path)
  | Some (RegularFile true contents) => Ok (TextIO.of_contents contents)
  end.

(** ** The reader *)

Inductive ending : Type :=
| Exhausted              (* the iteration ended with [StopIteration] *)
| Failed (e : exn).      (* another exception left the iteration *)

Module DataclassReader.

Record t : Type := mk {
  dataclass_type : dataclass;
  delimiter : string;
  header_comment_char : string;
  _fin : TextIO.t;
  _header : FileHeader;
  _reader : DictReader.t
}.

Definition default_delimiter : string := String Str.TAB EmptyString.
Definition default_header_comment_char : string := "#".

(** The [for line in reader: ... else: return None] loop of
    [_get_header]: the outcome is the preface and the line the loop broke
    at, or [None] when the lines ran out; with it, the lines not read. *)
Fixpoint scan_preface (header_comment_char : string) (preface : list string)
    (lines : list string) : option (list string * string) * list string :=
  match lines with
  | [] => (None, [])
  | line :: rest =>
      if Str.startswith line header_comment_char
         || String.eqb (Str.strip line) EmptyString
      then scan_preface header_comment_char (preface ++ [Str.strip line]) rest
      else (Some (preface, line), rest)
  end.

Definition _get_header (delimiter header_comment_char : string) (reader : TextIO.t)
    : result (option FileHeader) * TextIO.t :=
  if TextIO.closed reader
  then (Raise (ValueError "I/O operation on closed file."), reader)
  else
    match scan_preface header_comment_char [] (TextIO.lines reader) with
    | (None, rest) =>
        (Ok None, {| TextIO.lines := rest; TextIO.closed := false |})
    | (Some (preface, line), rest) =>
        (let! fieldnames := Str.split (Str.strip line) delimiter in
         Ok (Some {| preface := preface; fieldnames := fieldnames |}),
         {| TextIO.lines := rest; TextIO.closed := false |})
    end.

Definition nl : string := String Str.LF EmptyString.
Definition tab : string := String Str.TAB EmptyString.

Definition missing_header_message (path : string) : string :=
  "Could not find a header in the provided file: " +:+ path.

Definition mismatch_message (dc : dataclass) (path : string) : string :=
  "The provided file does not have the same field names as the provided dataclass:" +:+ nl
  +:+ tab +:+ "Dataclass: " +:+ __name__ dc +:+ nl
  +:+ tab +:+ "File: " +:+ path +:+ nl
  +:+ tab +:+ "Dataclass fields: " +:+ __name__ dc +:+ nl
  +:+ tab +:+ "File: " +:+ path +:+ nl.

Definition __init__ (fs : gmap string fs_entry) (path : string)
    (dataclass_type : pytype) (delimiter header_comment_char : string) : result t :=
  let! _ := assert_file_is_readable fs path in
  let! dc := assert_dataclass_is_valid dataclass_type in
  let! fin := path_open fs path in
  let '(h, fin') := _get_header delimiter header_comment_char fin in
  let! header := h in
  match header with
  | None => Raise (ValueError (missing_header_message path))
  | Some hd =>
      if bool_decide (fieldnames hd ≠ field_names dc)
      then Raise (ValueError (mismatch_message dc path))
      else
        let! rd := DictReader.new (fieldnames hd) delimiter in
        Ok {| dataclass_type := dc; delimiter := delimiter;
              header_comment_char := header_comment_char;
              _fin := fin'; _header := hd; _reader := rd |}
  end.

Definition set_fin (self : t) (f : TextIO.t) : t :=
  {| dataclass_type := dataclass_type self; delimiter := delimiter self;
     header_comment_char := header_comment_char self;
     _fin := f; _header := _header self; _reader := _reader self |}.

Definition __exit__ (self : t) : t := set_fin self (TextIO.close (_fin self)).

(** The loop of [_row_to_dataclass] over the declared fields. *)
Fixpoint coerce_fields (fs : list Field.t) (row : gmap (option string) rowval)
    (coerced_values : gmap string pyval) : result (gmap string pyval) :=
  match fs with
  | [] => Ok coerced_values
  | field :: fs' =>
      match row !! Some (Field.name field) with
      | None => Raise (KeyError (Field.name field))
      | Some value =>
          let! v := Field.type field value in
          coerce_fields fs' row (<[Field.name field := v]> coerced_values)
      end
  end.

Definition _row_to_dataclass (self : t) (row : gmap (option string) rowval)
    : result instance :=
  let! coerced_values := coerce_fields (fields (dataclass_type self)) row ∅ in
  construct (dataclass_type self) coerced_values.

Definition __next__ (self : t) : result instance * t :=
  match DictReader.next (_reader self) (_fin self) with
  | (Ok row, f) => (_row_to_dataclass self row, set_fin self f)
  | (Raise e, f) => (Raise e, set_fin self f)
  end.

(** [for row in reader], collecting the records: advance until an
    exception; [fuel] bounds the number of advances and [None] means the
    bound was reached before the iteration ended. *)
Fixpoint iterate (fuel : nat) (self : t) : option (list instance * ending * t) :=
  match fuel with
  | O => None
  | S fuel' =>
      match __next__ self with
      | (Raise StopIteration, self') => Some ([], Exhausted, self')
      | (Raise e, self') => Some ([], Failed e, self')
      | (Ok row, self') =>
          match iterate fuel' self' with
          | Some (rows, e, self'') => Some (row :: rows, e, self'')
          | None => None
          end
      end
  end.

End DataclassReader.


(** ** Vocabulary of the statements *)

Fixpoint all_chars (P : ascii -> bool) (s : string) : bool :=
  match s with
  | EmptyString => true
  | String c s' => P c && all_chars P s'
  end.

(** A line made of white space only. *)
Definition blank (s : string) : bool := all_chars Str.isspace s.

Definition not_newline (c : ascii) : bool := negb (csv.is_newline c).

(** The text of a file whose lines are [ls], each ended by a line feed. *)
Definition file_of_lines (ls : list string) : string :=
  foldr (fun l acc => l +:+ DataclassReader.nl +:+ acc) EmptyString ls.

Definition nonspace (c : ascii) : bool := negb (Str.isspace c).

Definition is_not (d : ascii) (c : ascii) : bool := negb (Ascii.eqb c d).

(** A line the header parser files under the preface: it begins with the
    comment prefix, or it is blank. *)
Definition preface_line (header_comment_char line : string) : Prop :=
  Str.startswith line header_comment_char = true \/ blank line = true.

(** The line without its terminator. *)
Fixpoint strip_terminator (line : string) : string :=
  match line with
  | EmptyString => EmptyString
  | String c EmptyString => if Ascii.eqb c Str.LF then EmptyString else line
  | String c line' => String c (strip_terminator line')
  end.


(** ** The record types and files of the test suite *)

Definition FakeDataclass : dataclass :=
  {| __name__ := "FakeDataclass";
     fields := [Field.mk "foo" Builtins.str; Field.mk "bar" Builtins.int] |}.

Definition FakeQuoted : dataclass :=
  {| __name__ := "FakeDataclass";
     fields := [Field.mk "id" Builtins.str; Field.mk "title" Builtins.str] |}.

Definition tsv (cells : list string) : string := Str.join DataclassReader.tab cells.

Definition quoted (s : string) : string :=
  String Str.DQUOTE s +:+ String Str.DQUOTE EmptyString.

Definition file_A : string :=
  file_of_lines [tsv ["foo"; "bar"]; tsv ["abc"; "1"]].

Definition file_B : string :=
  file_of_lines ["# note"; EmptyString; tsv ["foo"; "bar"]; tsv ["abc"; "1"]].

Definition file_C : string :=
  file_of_lines [tsv ["foo"; "baz"]; tsv ["abc"; "1"]].

Definition file_E : string :=
  file_of_lines [tsv ["foo"; "bar"]; tsv ["abc"; "notanumber"]].

Definition file_quoted_header : string :=
  file_of_lines [tsv [quoted "id"; quoted "title"];
                 tsv [quoted "fake"; quoted "A fake object"];
                 tsv [quoted "also_fake"; quoted "Another fake object"]].



Definition file_trailing_delimiter : string :=
  file_of_lines [tsv ["foo"; "bar"; EmptyString]; tsv ["abc"; "1"; "x"]].

Definition file_leading_delimiter : string :=
  file_of_lines [tsv [EmptyString; "id"; "title"]; tsv ["7"; "fake"; "A fake object"]].

(** A file system holding one readable file. *)
Definition single_file (path contents : string) : gmap string fs_entry :=
  {[ path := RegularFile true contents ]}.

(** [DataclassReader(path, dataclass_type)] with the default delimiter and
    comment character, on a file system holding that one file. *)
Definition open_default (contents : string) (dc : dataclass) : result DataclassReader.t :=
  DataclassReader.__init__ (single_file "test.txt" contents) "test.txt" (Dataclass dc)
    DataclassReader.default_delimiter DataclassReader.default_header_comment_char.

Definition file_surplus : string :=
  file_of_lines [tsv ["foo"; "bar"]; tsv ["abc"; "1"; "extra"]].

Definition file_short : string :=
  file_of_lines [tsv ["id"; "title"]; tsv ["fake"]].

(** The error of using a stream after it was closed. *)
Definition use_after_close (e : exn) : Prop :=
  e = ValueError "I/O operation on closed file.".

(** The reader is past its rows: its stream is closed, or has no line
    left. *)
Definition ended (self : DataclassReader.t) : Prop :=
  TextIO.closed (DataclassReader._fin self) = true
  \/ TextIO.lines (DataclassReader._fin self) = [].

(** A character the row reader takes as it stands with delimiter [d]: not
    the delimiter, not the quote character, not a line end. *)
Definition plain (d : ascii) (c : ascii) : bool :=
  negb (Ascii.eqb c d) && negb (Ascii.eqb c csv.quotechar) && not_newline c.

(** A cell made of plain characters, within the field size limit. *)
Definition plain_cell (d : ascii) (cell : string) : bool :=
  all_chars (plain d) cell && (N.of_nat (String.length cell) <=? csv.field_limit)%N.

(** A delimiter that is neither the quote character nor a line end. *)
Definition usable_delimiter (d : ascii) : bool :=
  negb (Ascii.eqb d csv.quotechar) && not_newline d.

(** A row of plain cells that the row reader does not take for an empty
    line. *)
Definition plain_row (d : ascii) (cells : list string) : Prop :=
  Forall (fun c => plain_cell d c = true) cells
  /\ cells <> [] /\ cells <> [EmptyString].

(** The record a row of cells stands for: every declared type applied to
    the cell at its position, the results bound to the field names in
    declaration order. *)
Definition decode_cells (dc : dataclass) (cells : list string) : result instance :=
  let! vs := mapM (fun fc : Field.t * string => Field.type fc.1 (RStr fc.2))
                  (zip (fields dc) cells) in
  Ok {| cls := __name__ dc; attrs := zip (field_names dc) vs |}.

(** The reader is bound to its record type: the row reader's keys are the
    declared field names, which are pairwise distinct, and its delimiter
    is [d]. *)
Definition bound (self : DataclassReader.t) (d : ascii) : Prop :=
  DictReader.fieldnames (DataclassReader._reader self)
  = field_names (DataclassReader.dataclass_type self)
  /\ DictReader.delimiter (DataclassReader._reader self) = d
  /\ NoDup (field_names (DataclassReader.dataclass_type self)).

(** The line of a row of cells in a file with delimiter [d]. *)
Definition row_line (d : ascii) (cells : list string) : string :=
  Str.join (String d EmptyString) cells +:+ DataclassReader.nl.

(** A reader with the default delimiter and comment character, bound to
    [dc], whose stream holds [lines]. *)
Definition reader_at (dc : dataclass) (lines : list string) (closed : bool)
    : DataclassReader.t :=
  {| DataclassReader.dataclass_type := dc;
     DataclassReader.delimiter := DataclassReader.default_delimiter;
     DataclassReader.header_comment_char := DataclassReader.default_header_comment_char;
     DataclassReader._fin := {| TextIO.lines := lines; TextIO.closed := closed |};
     DataclassReader._header := {| preface := []; fieldnames := field_names dc |};
     DataclassReader._reader :=
       {| DictReader.fieldnames := field_names dc; DictReader.delimiter := Str.TAB |} |}.

(** A field name that survives the header parser with delimiter [d]: not
    empty, free of white space and of the delimiter. *)
Definition field_name_ok (d : ascii) (n : string) : bool :=
  negb (String.eqb n EmptyString) && all_chars nonspace n && all_chars (is_not d) n.

(** The record a row dictionary stands for: every declared type applied to
    the value found under the field's name, [KeyError] for a name that is
    not a key; the results bound to the field names in declaration order. *)
Definition decode_row (dc : dataclass) (row : gmap (option string) rowval)
    : result instance :=
  let! vs := mapM (fun f : Field.t =>
                     match row !! Some (Field.name f) with
                     | Some value => Field.type f value
                     | None => Raise (KeyError (Field.name f))
                     end) (fields dc) in
  Ok {| cls := __name__ dc; attrs := zip (field_names dc) vs |}.

(** The record made from a list of row values, one per field. *)
Definition decode_values (dc : dataclass) (values : list rowval) : result instance :=
  let! vs := mapM (fun fv : Field.t * rowval => Field.type fv.1 fv.2)
                  (zip (fields dc) values) in
  Ok {| cls := __name__ dc; attrs := zip (field_names dc) vs |}.

(** The values a row of cells gives to [n] fields: the cells in order,
    [None] for the fields past the last cell, nothing for surplus cells. *)
Definition row_values (n : nat) (cells : list string) : list rowval :=
  take n ((RStr <$> cells) ++ replicate (n - length cells) RNone).

(** The body of a cell with every quote character doubled. *)
Fixpoint double_quotes (body : string) : string :=
  match body with
  | EmptyString => EmptyString
  | String c s =>
      if Ascii.eqb c csv.quotechar
      then String csv.quotechar (String csv.quotechar (double_quotes s))
      else String c (double_quotes s)
  end.

(** A cell as it stands in a line: plain, or enclosed in quotes with the
    quotes of its body doubled. The flag says which. *)
Definition written (cell : bool * string) : string :=
  if cell.1
  then String csv.quotechar (double_quotes cell.2) +:+ String csv.quotechar EmptyString
  else cell.2.

(** A cell the row reader gives back as its body: a plain cell, or a
    quoted cell whose body has no line end and is within the field size
    limit. *)
Definition readable_cell (d : ascii) (cell : bool * string) : bool :=
  if cell.1
  then all_chars not_newline cell.2
       && (N.of_nat (String.length cell.2) <=? csv.field_limit)%N
  else plain_cell d cell.2.

(** The states in which the row reader has a complete field at hand. *)
Definition field_end (st : csv.ParserState) : Prop :=
  st = csv.START_FIELD \/ st = csv.IN_FIELD \/ st = csv.QUOTE_IN_QUOTED_FIELD.

(** The text of a row of written cells, without its terminator. *)
Definition written_row (d : ascii) (cells : list (bool * string)) : string :=
  Str.join (String d EmptyString) (written <$> cells).

(** The terminator of the last line of a file: a line feed, or nothing. *)
Definition last_terminator (final_newline : bool) : string :=
  if final_newline then DataclassReader.nl else EmptyString.

(** The text of a file: the preface lines [pre], each ended by a line
    feed, then the lines [body] separated by line feeds, the last of them
    ended by a line feed or not. *)
Definition file_text (pre body : list string) (final_newline : bool) : string :=
  file_of_lines pre
  +:+ Str.join DataclassReader.nl body +:+ last_terminator final_newline.

(** The lines read from [body] when its last line ends with [term]. *)
Fixpoint lines_of (body : list string) (term : string) : list string :=
  match body with
  | [] => []
  | x :: body' =>
      (x +:+ match body' with [] => term | _ => DataclassReader.nl end)
      :: lines_of body' term
  end.

(** A data row of a well-formed file with delimiter [d] and [n] columns:
    [n] readable cells, and not the row of one empty plain cell, which is
    an empty line. *)
Definition well_formed_row (d : ascii) (n : nat) (cells : list (bool * string)) : Prop :=
  Forall (fun c => readable_cell d c = true) cells
  /\ cells <> [(false, EmptyString)]
  /\ length cells = n.
(** * Properties *)

Local Open Scope nat_scope.

(** ** Strings *)


Lemma sapp_cons (c : ascii) (s t : string) : String c s +:+ t = String c (s +:+ t).
Proof. reflexivity. Qed.

Lemma sapp_nil_l (s : string) : EmptyString +:+ s = s.
Proof. reflexivity. Qed.

Lemma sapp_nil_r (s : string) : s +:+ EmptyString = s.
Proof. induction s as [|c s IH]; [reflexivity|]. by rewrite sapp_cons, IH. Qed.

Lemma app_assoc_s (s t u : string) : (s +:+ t) +:+ u = s +:+ (t +:+ u).
Proof. induction s as [|c s IH]; [reflexivity|]. by rewrite !sapp_cons, IH. Qed.

Lemma sapp_snoc_cons (s : string) (c : ascii) (t : string) :
  (s +:+ String c EmptyString) +:+ t = s +:+ String c t.
Proof. by rewrite app_assoc_s. Qed.

Lemma sapp_eq_nil (s t : string) : s +:+ t = EmptyString -> s = EmptyString /\ t = EmptyString.
Proof. destruct s; [by rewrite sapp_nil_l|by rewrite sapp_cons]. Qed.

Lemma all_chars_app P (s t : string) :
  all_chars P (s +:+ t) = all_chars P s && all_chars P t.
Proof.
  induction s as [|c s IH]; [reflexivity|].
  rewrite sapp_cons. simpl. by rewrite IH, andb_assoc.
Qed.

Lemma all_chars_impl (P Q : ascii -> bool) (s : string) :
  (forall c, P c = true -> Q c = true) -> all_chars P s = true -> all_chars Q s = true.
Proof.
  intros HPQ. induction s as [|c s IH]; simpl; [done|].
  intros [Hc Hs]%andb_true_iff. rewrite (HPQ _ Hc). by apply IH.
Qed.

(** *** Lines of a text *)

Lemma readlines_go_line (l rest cur : string) :
  all_chars not_newline l = true ->
  TextIO.readlines_go (l +:+ String Str.LF rest) false cur
  = (cur +:+ l +:+ DataclassReader.nl) :: TextIO.readlines_go rest false EmptyString.
Proof.
  revert cur. induction l as [|c l IH]; intros cur Hl.
  - reflexivity.
  - simpl in Hl. apply andb_true_iff in Hl as [Hc Hl].
    unfold not_newline, csv.is_newline in Hc.
    apply negb_true_iff, orb_false_iff in Hc as [Hlf Hcr].
    rewrite sapp_cons. simpl. rewrite Hlf, Hcr.
    rewrite IH by done. by rewrite sapp_snoc_cons.
Qed.

(** *** [strip] *)

Lemma lstrip_blank (s : string) : blank s = true -> Str.lstrip s = EmptyString.
Proof.
  unfold blank. induction s as [|c s IH]; simpl; [done|].
  intros [Hc Hs]%andb_true_iff. rewrite Hc. by apply IH.
Qed.

Lemma rstrip_nil_blank (s : string) : Str.rstrip s = EmptyString -> blank s = true.
Proof.
  unfold blank. induction s as [|c s IH]; simpl; [done|].
  destruct (Str.rstrip s) eqn:Hr; [|done].
  destruct (Str.isspace c); [|done]. intros _. by rewrite IH.
Qed.

Lemma lstrip_suffix_blank (s : string) :
  blank (Str.lstrip s) = true -> blank s = true.
Proof.
  unfold blank. induction s as [|c s IH]; simpl; [done|].
  destruct (Str.isspace c) eqn:Hc; [done|]. simpl. by rewrite Hc.
Qed.

(** [strip] leaves nothing exactly of the blank strings. *)
Lemma strip_nil_iff (s : string) : Str.strip s = EmptyString <-> blank s = true.
Proof.
  unfold Str.strip. split.
  - intros H%rstrip_nil_blank. by apply lstrip_suffix_blank.
  - intros H. by rewrite lstrip_blank.
Qed.

Lemma rstrip_app_blank (s t : string) :
  blank t = true -> Str.rstrip (s +:+ t) = Str.rstrip s.
Proof.
  unfold blank. intros Ht. induction s as [|c s IH].
  - rewrite sapp_nil_l. simpl.
    assert (Str.rstrip t = EmptyString) as ->; [|done].
    clear -Ht. induction t as [|c t IH]; simpl; [done|].
    simpl in Ht. apply andb_true_iff in Ht as [Hc Ht]. by rewrite IH, Hc.
  - rewrite sapp_cons. simpl. by rewrite IH.
Qed.

Lemma rstrip_app_fixed (s t : string) :
  t <> EmptyString -> Str.rstrip t = t -> Str.rstrip (s +:+ t) = s +:+ t.
Proof.
  intros Hne Ht. induction s as [|c s IH]; [by rewrite sapp_nil_l|].
  rewrite sapp_cons. simpl. rewrite IH.
  destruct (s +:+ t) eqn:Hst; [|done].
  by apply sapp_eq_nil in Hst as [_ ?].
Qed.


Lemma rstrip_nonspace (s : string) :
  all_chars nonspace s = true -> Str.rstrip s = s.
Proof.
  induction s as [|c s IH]; simpl; [done|].
  intros [Hc Hs]%andb_true_iff. rewrite IH by done.
  apply negb_true_iff in Hc. rewrite Hc. by destruct s.
Qed.

(** *** [split] and [join] on a one-character separator *)

Lemma prefix_char (d c : ascii) (s : string) :
  String.prefix (String d EmptyString) (String c s) = Ascii.eqb d c.
Proof.
  simpl. destruct (ascii_dec d c) as [->|Hne].
  - rewrite Ascii.eqb_refl. by destruct s.
  - symmetry. by apply Ascii.eqb_neq.
Qed.


Lemma split_go_piece (d : ascii) (cell rest cur : string) :
  all_chars (is_not d) cell = true ->
  Str.split_go (String d EmptyString) (cell +:+ String d rest) O cur
  = (cur +:+ cell) :: Str.split_go (String d EmptyString) rest O EmptyString.
Proof.
  revert cur. induction cell as [|c cell IH]; intros cur Hcell.
  - rewrite sapp_nil_l, sapp_nil_r.
    cbn [Str.split_go]. rewrite prefix_char, Ascii.eqb_refl. reflexivity.
  - simpl in Hcell. apply andb_true_iff in Hcell as [Hc Hcell].
    rewrite sapp_cons. cbn [Str.split_go]. rewrite prefix_char.
    unfold is_not in Hc. apply negb_true_iff in Hc.
    rewrite Ascii.eqb_sym, Hc. rewrite IH by done. by rewrite sapp_snoc_cons.
Qed.

Lemma split_go_last (d : ascii) (cell cur : string) :
  all_chars (is_not d) cell = true ->
  Str.split_go (String d EmptyString) cell O cur = [cur +:+ cell].
Proof.
  revert cur. induction cell as [|c cell IH]; intros cur Hcell.
  - by rewrite sapp_nil_r.
  - simpl in Hcell. apply andb_true_iff in Hcell as [Hc Hcell].
    cbn [Str.split_go]. rewrite prefix_char.
    unfold is_not in Hc. apply negb_true_iff in Hc.
    rewrite Ascii.eqb_sym, Hc. rewrite IH by done. by rewrite sapp_snoc_cons.
Qed.

Lemma join_cons (sep x y : string) (l : list string) :
  Str.join sep (x :: y :: l) = x +:+ sep +:+ Str.join sep (y :: l).
Proof. reflexivity. Qed.

(** Splitting a joined row gives the cells back when no cell holds the
    separator. *)
Lemma split_go_join (d : ascii) (cells : list string) :
  cells <> [] ->
  Forall (fun c => all_chars (is_not d) c = true) cells ->
  Str.split_go (String d EmptyString) (Str.join (String d EmptyString) cells) O EmptyString
  = cells.
Proof.
  intros Hne Hall. induction Hall as [|x l Hx Hl IH]; [done|].
  destruct l as [|y l].
  - simpl. by rewrite split_go_last.
  - rewrite join_cons, sapp_cons, sapp_nil_l.
    rewrite split_go_piece by done. rewrite sapp_nil_l. f_equal. by apply IH.
Qed.

(** ** The header parser *)

Lemma strip_eqb_blank (s : string) :
  String.eqb (Str.strip s) EmptyString = blank s.
Proof.
  destruct (blank s) eqn:Hb.
  - apply String.eqb_eq. by apply strip_nil_iff.
  - apply eqb_neq. intros H%strip_nil_iff. congruence.
Qed.

Lemma preface_line_test (cc line : string) :
  preface_line cc line <->
  Str.startswith line cc || String.eqb (Str.strip line) EmptyString = true.
Proof.
  unfold preface_line. rewrite strip_eqb_blank, orb_true_iff. tauto.
Qed.

Lemma scan_preface_all (cc : string) (acc ls : list string) :
  Forall (preface_line cc) ls ->
  DataclassReader.scan_preface cc acc ls = (None, []).
Proof.
  intros Hall. revert acc. induction Hall as [|l ls Hl _ IH]; intros acc.
  - reflexivity.
  - simpl. apply preface_line_test in Hl. rewrite Hl. apply IH.
Qed.

Lemma scan_preface_break (cc : string) (acc pre : list string) (hl : string)
    (rest : list string) :
  Forall (preface_line cc) pre ->
  ~ preface_line cc hl ->
  DataclassReader.scan_preface cc acc (pre ++ hl :: rest)
  = (Some (acc ++ (Str.strip <$> pre), hl), rest).
Proof.
  intros Hall Hhl. revert acc. induction Hall as [|l ls Hl _ IH]; intros acc.
  - simpl. rewrite preface_line_test in Hhl.
    apply not_true_is_false in Hhl. rewrite Hhl. simpl. by rewrite app_nil_r.
  - simpl. apply preface_line_test in Hl. rewrite Hl.
    rewrite IH. rewrite <- (List.app_assoc acc [Str.strip l]). reflexivity.
Qed.

Lemma split_go_nonempty (sep s : string) (skip : nat) (cur : string) :
  Str.split_go sep s skip cur <> [].
Proof.
  revert skip cur. induction s as [|c s IH]; intros skip cur; [discriminate|].
  cbn [Str.split_go]. destruct skip; [|apply IH].
  destruct (String.prefix sep (String c s)); [discriminate|apply IH].
Qed.

Lemma split_nonempty (s sep : string) (l : list string) :
  Str.split s sep = Ok l -> l <> [].
Proof.
  unfold Str.split. destruct sep; [done|].
  intros [= <-]. apply split_go_nonempty.
Qed.

(** C9: whenever the header parser returns a header, for any stream,
    delimiter and comment character, the header's list of fieldnames is
    not empty. *)
Theorem get_header_fieldnames_nonempty (delimiter header_comment_char : string)
    (reader reader' : TextIO.t) (hd : FileHeader) :
  DataclassReader._get_header delimiter header_comment_char reader = (Ok (Some hd), reader') ->
  fieldnames hd <> [].
Proof.
  unfold DataclassReader._get_header.
  destruct (TextIO.closed reader); [done|].
  destruct (DataclassReader.scan_preface _ _ _) as [[[pre line]|] rest]; [|done].
  destruct (Str.split (Str.strip line) delimiter) as [names|e] eqn:Hsplit; [|done].
  simpl. intros [= <- _]. simpl. by eapply split_nonempty.
Qed.

Lemma get_header_fieldnames_nonempty_witness :
  fieldnames {| preface := []; fieldnames := ["foo"; "bar"] |} <> [].
Proof.
  apply (get_header_fieldnames_nonempty DataclassReader.tab "#"
           (TextIO.of_contents file_A)
           {| TextIO.lines := [tsv ["abc"; "1"] +:+ DataclassReader.nl];
              TextIO.closed := false |}).
  reflexivity.
Defined.

Lemma get_header_at (delimiter header_comment_char : string)
    (pre : list string) (hl : string) (rest names : list string) :
  Forall (preface_line header_comment_char) pre ->
  ~ preface_line header_comment_char hl ->
  Str.split (Str.strip hl) delimiter = Ok names ->
  DataclassReader._get_header delimiter header_comment_char
    {| TextIO.lines := pre ++ hl :: rest; TextIO.closed := false |}
  = (Ok (Some {| preface := Str.strip <$> pre; fieldnames := names |}),
     {| TextIO.lines := rest; TextIO.closed := false |}).
Proof.
  intros Hpre Hhl Hsplit. unfold DataclassReader._get_header. simpl.
  rewrite (scan_preface_break _ [] pre hl rest Hpre Hhl).
  by rewrite Hsplit.
Qed.


(** C5: for a file that is empty or holds only preface lines (blank or
    beginning with the comment prefix), the header parser reports that
    there is no header, without raising, and the constructor fails with the
    missing-header error, whose message ends with the path of the file. *)
Theorem init_missing_header (fs : gmap string fs_entry) (path contents : string)
    (dc : dataclass) (delimiter header_comment_char : string) :
  fs !! path = Some (RegularFile true contents) ->
  Forall (preface_line header_comment_char) (TextIO.readlines contents) ->
  DataclassReader._get_header delimiter header_comment_char (TextIO.of_contents contents)
  = (Ok None, {| TextIO.lines := []; TextIO.closed := false |})
  /\ DataclassReader.__init__ fs path (Dataclass dc) delimiter header_comment_char
     = Raise (ValueError ("Could not find a header in the provided file: " +:+ path)).
Proof.
  intros Hfs Hall.
  assert (DataclassReader._get_header delimiter header_comment_char
            (TextIO.of_contents contents)
          = (Ok None, {| TextIO.lines := []; TextIO.closed := false |})) as Hget.
  { unfold DataclassReader._get_header, TextIO.of_contents. simpl.
    by rewrite scan_preface_all. }
  split; [done|].
  unfold DataclassReader.__init__, assert_file_is_readable, path_open.
  rewrite Hfs. simpl. by rewrite Hget.
Qed.

(** C3: two files whose fieldname row, split on the delimiter, differs in
    count and position from the field names: [foo], [bar] and an empty
    name against the fields [foo], [bar]; an empty name, [id], [title]
    against the fields [id], [title]. The header parser strips the row
    before it splits it, the tab at the end or at the start is lost with
    the white space, the fieldnames compare equal to the field names and
    the constructor returns a reader. The rows are then read against the
    shortened header: the last cell of the first file is dropped, the
    cells of the second are bound one column to the left. *)
Theorem header_delimiters_stripped :
  Str.split (strip_terminator (row_line Str.TAB ["foo"; "bar"; EmptyString]))
    DataclassReader.tab
  = Ok ["foo"; "bar"; EmptyString]
  /\ (exists r r',
        open_default file_trailing_delimiter FakeDataclass = Ok r
        /\ fieldnames (DataclassReader._header r) = ["foo"; "bar"]
        /\ DataclassReader.iterate 2 r
           = Some ([{| cls := "FakeDataclass";
                       attrs := [("foo", VStr "abc"); ("bar", VInt 1)] |}],
                   Exhausted, r'))
  /\ Str.split (strip_terminator (row_line Str.TAB [EmptyString; "id"; "title"]))
       DataclassReader.tab
     = Ok [EmptyString; "id"; "title"]
  /\ (exists r r',
        open_default file_leading_delimiter FakeQuoted = Ok r
        /\ fieldnames (DataclassReader._header r) = ["id"; "title"]
        /\ DataclassReader.iterate 2 r
           = Some ([{| cls := "FakeDataclass";
                       attrs := [("id", VStr "7"); ("title", VStr "fake")] |}],
                   Exhausted, r')).
Proof.
  split; [reflexivity|]. split.
  - eexists _, _. split; [reflexivity|]. split; [reflexivity|]. vm_compute. reflexivity.
  - split; [reflexivity|].
    eexists _, _. split; [reflexivity|]. split; [reflexivity|]. vm_compute. reflexivity.
Qed.


(** C2: the file of the test for quoted header names. The header parser
    keeps the quotes, the constructor compares the quoted tokens with the
    field names [id] and [title] and fails with the schema-mismatch error.
    The row reader applied to the same header line removes the quotes. *)
Theorem quoted_header_rejected :
  (DataclassReader._get_header DataclassReader.tab "#" (TextIO.of_contents file_quoted_header)).1
  = Ok (Some {| preface := []; fieldnames := [quoted "id"; quoted "title"] |})
  /\ open_default file_quoted_header FakeQuoted
     = Raise (ValueError (DataclassReader.mismatch_message FakeQuoted "test.txt"))
  /\ (csv.Reader_iternext Str.TAB (TextIO.of_contents file_quoted_header)).1
     = Ok ["id"; "title"].
Proof. repeat split; reflexivity. Qed.

(** C7: the schema-mismatch message raised for scenario C (file columns
    [foo], [baz] against fields [foo], [bar]) names the record type and the
    path, twice each, and holds none of the field names of either side. *)
Theorem mismatch_message_lacks_fieldnames :
  exists msg,
    open_default file_C FakeDataclass = Raise (ValueError msg)
    /\ msg = DataclassReader.mismatch_message FakeDataclass "test.txt"
    /\ String.index 0 "FakeDataclass" msg <> None
    /\ String.index 0 "test.txt" msg <> None
    /\ String.index 0 "foo" msg = None
    /\ String.index 0 "bar" msg = None
    /\ String.index 0 "baz" msg = None.
Proof. eexists. repeat split; try reflexivity; discriminate. Qed.

(** ** Advancing *)

Lemma set_fin_same (self : DataclassReader.t) :
  DataclassReader.set_fin self (DataclassReader._fin self) = self.
Proof. by destruct self. Qed.

Lemma next_at_end (self : DataclassReader.t) :
  ended self ->
  DataclassReader.__next__ self
  = (Raise (if TextIO.closed (DataclassReader._fin self)
            then ValueError "I/O operation on closed file."
            else StopIteration), self).
Proof.
  intros Hend. rewrite <- (set_fin_same self) at 3.
  unfold DataclassReader.__next__, DictReader.next.
  destruct (DataclassReader._fin self) as [lines closed] eqn:Hfin.
  destruct closed; simpl.
  - destruct lines; reflexivity.
  - destruct Hend as [Hc|Hl]; rewrite Hfin in *; simpl in *; [done|].
    subst lines. reflexivity.
Qed.

(** C8 (amended): once the stream is closed, every advance fails with the
    closed-file [ValueError]; once the stream has no line left and is still
    open, every advance ends the iteration with [StopIteration] again. In
    both cases no record is returned and the reader is unchanged. *)
Theorem advance_after_end (self : DataclassReader.t) :
  ended self ->
  DataclassReader.__next__ self
  = (Raise (if TextIO.closed (DataclassReader._fin self)
            then ValueError "I/O operation on closed file."
            else StopIteration), self).
Proof. apply next_at_end. Qed.

(** C8 (as stated, refuted): the reader over the file of scenario A,
    advanced until the iteration ends, is exhausted and open; one more
    advance raises [StopIteration], the end of the iteration, which is not
    the error of using a closed stream. *)
Lemma advance_after_exhaustion_stops :
  exists r r' rows,
    open_default file_A FakeDataclass = Ok r
    /\ DataclassReader.iterate 2 r = Some (rows, Exhausted, r')
    /\ TextIO.closed (DataclassReader._fin r') = false
    /\ (DataclassReader.__next__ r').1 = Raise StopIteration
    /\ ~ use_after_close StopIteration.
Proof.
  eexists _, _, _. split; [reflexivity|].
  split; [vm_compute; reflexivity|].
  repeat split; try reflexivity. discriminate.
Qed.

(** ** The row reader on plain rows *)

Section PlainRows.

Variable d : ascii.
Hypothesis d_usable : usable_delimiter d = true.

Let d_not_newline : csv.is_newline d = false.
Proof.
  unfold usable_delimiter, not_newline in d_usable.
  apply andb_true_iff in d_usable as [_ H]. by apply negb_true_iff.
Qed.

Let d_not_quote : Ascii.eqb d csv.quotechar = false.
Proof.
  unfold usable_delimiter in d_usable.
  apply andb_true_iff in d_usable as [H _]. by apply negb_true_iff.
Qed.

Lemma plain_inv (c : ascii) :
  plain d c = true ->
  Ascii.eqb c d = false /\ Ascii.eqb c csv.quotechar = false /\ csv.is_newline c = false.
Proof.
  unfold plain, not_newline.
  intros [[H1 H2]%andb_true_iff H3]%andb_true_iff.
  by rewrite !negb_true_iff in *.
Qed.

Lemma step_start_record (fs : list string) (f : string) (c : ascii) :
  csv.is_newline c = false ->
  csv.parse_process_char d (csv.mkParser csv.START_RECORD fs f) (Some c)
  = csv.parse_process_char d (csv.mkParser csv.START_FIELD fs f) (Some c).
Proof. intros Hc. unfold csv.parse_process_char. simpl. by rewrite Hc. Qed.

Lemma step_start_field_plain (fs : list string) (c : ascii) :
  plain d c = true ->
  csv.parse_process_char d (csv.mkParser csv.START_FIELD fs EmptyString) (Some c)
  = Ok (csv.mkParser csv.IN_FIELD fs (String c EmptyString)).
Proof.
  intros (Hd & Hq & Hn)%plain_inv. unfold csv.parse_process_char. simpl.
  by rewrite Hn, Hq, Hd.
Qed.

Lemma step_in_field_plain (fs : list string) (f : string) (c : ascii) :
  plain d c = true ->
  (N.of_nat (String.length f) < csv.field_limit)%N ->
  csv.parse_process_char d (csv.mkParser csv.IN_FIELD fs f) (Some c)
  = Ok (csv.mkParser csv.IN_FIELD fs (f +:+ String c EmptyString)).
Proof.
  intros (Hd & Hq & Hn)%plain_inv Hlen. unfold csv.parse_process_char. simpl.
  rewrite Hn, Hd. unfold csv.parse_add_char. simpl.
  by rewrite (proj2 (N.leb_gt _ _) Hlen).
Qed.

Lemma step_delimiter (st : csv.ParserState) (fs : list string) (f : string) :
  st = csv.START_FIELD \/ st = csv.IN_FIELD ->
  csv.parse_process_char d (csv.mkParser st fs f) (Some d)
  = Ok (csv.mkParser csv.START_FIELD (fs ++ [f]) EmptyString).
Proof.
  intros [-> | ->]; unfold csv.parse_process_char; simpl;
    by rewrite d_not_newline, ?d_not_quote, Ascii.eqb_refl.
Qed.

Lemma step_line_feed (st : csv.ParserState) (fs : list string) (f : string) :
  st = csv.START_FIELD \/ st = csv.IN_FIELD ->
  csv.parse_process_char d (csv.mkParser st fs f) (Some Str.LF)
  = Ok (csv.mkParser csv.EAT_CRNL (fs ++ [f]) EmptyString).
Proof. by intros [-> | ->]. Qed.

Lemma process_line_app (p : csv.parser) (s t : string) :
  csv.process_line d p (s +:+ t)
  = rbind (csv.process_line d p s) (fun p' => csv.process_line d p' t).
Proof.
  revert p. induction s as [|c s IH]; intros p; [reflexivity|].
  rewrite sapp_cons. simpl.
  destruct (csv.parse_process_char d p (Some c)); simpl; [apply IH|done].
Qed.

Lemma length_snoc (f : string) (c : ascii) :
  String.length (f +:+ String c EmptyString) = S (String.length f).
Proof. induction f as [|c' f IH]; [reflexivity|]. rewrite sapp_cons. simpl. by rewrite IH. Qed.

(** Inside a field, plain characters are appended to it. *)
Lemma process_in_field (cell : string) (fs : list string) (f : string) :
  all_chars (plain d) cell = true ->
  (N.of_nat (String.length f + String.length cell) <= csv.field_limit)%N ->
  csv.process_line d (csv.mkParser csv.IN_FIELD fs f) cell
  = Ok (csv.mkParser csv.IN_FIELD fs (f +:+ cell)).
Proof.
  revert f. induction cell as [|c cell IH]; intros f Hplain Hlen.
  - by rewrite sapp_nil_r.
  - simpl in Hplain. apply andb_true_iff in Hplain as [Hc Hplain].
    simpl in Hlen. simpl.
    rewrite step_in_field_plain by (done || lia). simpl.
    rewrite IH; [by rewrite sapp_snoc_cons|done|].
    rewrite length_snoc. lia.
Qed.

(** A plain cell read from the start of a field. *)
Lemma process_cell (cell : string) (fs : list string) :
  plain_cell d cell = true ->
  exists st, (st = csv.START_FIELD \/ st = csv.IN_FIELD)
    /\ csv.process_line d (csv.mkParser csv.START_FIELD fs EmptyString) cell
       = Ok (csv.mkParser st fs cell).
Proof.
  intros [Hplain Hlen%N.leb_le]%andb_true_iff.
  destruct cell as [|c cell].
  - exists csv.START_FIELD. auto.
  - exists csv.IN_FIELD. split; [auto|].
    simpl in Hplain. apply andb_true_iff in Hplain as [Hc Hplain].
    simpl. rewrite step_start_field_plain by done. simpl.
    rewrite process_in_field; [done|done|]. simpl in *. lia.
Qed.

(** A row of plain cells, read from the start of a field up to the end
    of its line, adds its cells to the record. *)
Lemma process_row (cells : list string) (fs : list string) :
  cells <> [] ->
  Forall (fun c => plain_cell d c = true) cells ->
  rbind (csv.process_line d (csv.mkParser csv.START_FIELD fs EmptyString)
           (Str.join (String d EmptyString) cells +:+ DataclassReader.nl))
        (fun p => csv.parse_process_char d p None)
  = Ok (csv.mkParser csv.START_RECORD (fs ++ cells) EmptyString).
Proof.
  intros Hne Hall. revert fs. induction Hall as [|x l Hx Hl IH]; intros fs; [done|].
  destruct (process_cell x fs Hx) as (st & Hst & Hrun).
  destruct l as [|y l].
  - simpl Str.join. rewrite process_line_app, Hrun. simpl.
    rewrite step_line_feed by done. reflexivity.
  - rewrite join_cons, !app_assoc_s, process_line_app, Hrun. simpl.
    rewrite step_delimiter by done. simpl.
    rewrite IH by done. by rewrite <- List.app_assoc.
Qed.

Lemma join_first_char (cells : list string) :
  plain_row d cells ->
  exists c s, Str.join (String d EmptyString) cells +:+ DataclassReader.nl = String c s
              /\ csv.is_newline c = false.
Proof.
  intros (Hall & Hne & Hne').
  destruct cells as [|x l]; [done|].
  destruct x as [|c x].
  - destruct l as [|y l]; [done|].
    rewrite join_cons. exists d. eexists. split; [reflexivity|done].
  - exists c. inversion Hall as [|? ? Hx _]; subst.
    apply andb_true_iff in Hx as [Hx _]. simpl in Hx.
    apply andb_true_iff in Hx as [Hc _]. apply plain_inv in Hc as (_ & _ & Hc).
    destruct l; eexists; (split; [reflexivity|done]).
Qed.

Lemma process_line_start_record (fs : list string) (f : string) (c : ascii) (s : string) :
  csv.is_newline c = false ->
  csv.process_line d (csv.mkParser csv.START_RECORD fs f) (String c s)
  = csv.process_line d (csv.mkParser csv.START_FIELD fs f) (String c s).
Proof. intros Hc. simpl. by rewrite step_start_record. Qed.

(** The reader returns the cells of a plain row and leaves the stream
    after its line. *)
Lemma iternext_plain_row (cells : list string) (rest : list string) :
  plain_row d cells ->
  csv.Reader_iternext d
    {| TextIO.lines := (Str.join (String d EmptyString) cells +:+ DataclassReader.nl) :: rest;
       TextIO.closed := false |}
  = (Ok cells, {| TextIO.lines := rest; TextIO.closed := false |}).
Proof.
  intros Hrow. destruct (join_first_char cells Hrow) as (c & s & Hline & Hc).
  destruct Hrow as (Hall & Hne & _).
  unfold csv.Reader_iternext. simpl. unfold csv.parse_reset.
  pose proof (process_row cells [] Hne Hall) as Hrun.
  rewrite Hline in *. rewrite process_line_start_record by done.
  by rewrite Hrun.
Qed.

Lemma next_row_plain (fuel : nat) (cells : list string) (rest : list string) :
  plain_row d cells ->
  DictReader.next_row fuel d
    {| TextIO.lines := (Str.join (String d EmptyString) cells +:+ DataclassReader.nl) :: rest;
       TextIO.closed := false |}
  = Some (Ok cells, {| TextIO.lines := rest; TextIO.closed := false |}).
Proof.
  intros Hrow. destruct fuel; simpl; rewrite iternext_plain_row by done;
    destruct Hrow as (_ & Hne & _); by destruct cells.
Qed.

End PlainRows.

(** ** Dictionaries built from pairs *)

Section DictUpdate.

Context {K V : Type} `{Countable K}.

Lemma dict_update_lookup_notin (pairs : list (K * V)) (d : gmap K V) (k : K) :
  k ∉ pairs.*1 -> dict_update d pairs !! k = d !! k.
Proof.
  revert d. induction pairs as [|[k' v'] pairs IH]; intros d Hk; [done|].
  simpl in *. apply not_elem_of_cons in Hk as [Hne Hk].
  unfold dict_update in *. simpl. rewrite IH by done.
  by rewrite lookup_insert_ne.
Qed.

Lemma dict_update_lookup (pairs : list (K * V)) (d : gmap K V) (i : nat) (k : K) (v : V) :
  NoDup pairs.*1 -> pairs !! i = Some (k, v) -> dict_update d pairs !! k = Some v.
Proof.
  revert d i. induction pairs as [|[k' v'] pairs IH]; intros d i Hnd Hi; [done|].
  simpl in Hnd. apply NoDup_cons in Hnd as [Hnotin Hnd].
  unfold dict_update in *. simpl. destruct i as [|i].
  - simpl in Hi. injection Hi as -> ->.
    pose proof (dict_update_lookup_notin pairs (<[k:=v]> d) k Hnotin) as Hl.
    unfold dict_update in Hl. rewrite Hl. apply lookup_insert_eq.
  - simpl in Hi. by eapply IH.
Qed.

Lemma dict_update_dom (pairs : list (K * V)) (d : gmap K V) :
  dom (dict_update d pairs) = dom d ∪ list_to_set pairs.*1.
Proof.
  revert d. induction pairs as [|[k v] pairs IH]; intros d.
  - simpl. by rewrite union_empty_r_L.
  - unfold dict_update in *. simpl. rewrite IH, dom_insert_L.
    by rewrite (comm_L (∪) {[k]}), <- (assoc_L (∪)).
Qed.

End DictUpdate.

(** ** Decoding a row *)

Lemma row_dict_lookup (names cells : list string) (i : nat) (n c : string) :
  NoDup names -> length names <= length cells ->
  names !! i = Some n -> cells !! i = Some c ->
  DictReader.row_dict names cells !! Some n = Some (RStr c).
Proof.
  intros Hnd Hlen Hn Hc.
  assert (DictReader.zip_dict names cells !! Some n = Some (RStr c)) as Hzip.
  { unfold DictReader.zip_dict. apply (dict_update_lookup _ _ i).
    - rewrite fst_zip by (rewrite !length_fmap; lia).
      apply NoDup_fmap_2; [apply _|done].
    - rewrite lookup_zip_with, !list_lookup_fmap, Hn, Hc. reflexivity. }
  unfold DictReader.row_dict.
  destruct (length names <? length cells)%nat eqn:Hlt.
  - by rewrite lookup_insert_ne.
  - assert ((length cells <? length names)%nat = false) as ->; [|done].
    apply Nat.ltb_ge. lia.
Qed.

Lemma row_dict_rest (names cells : list string) :
  length names < length cells ->
  DictReader.row_dict names cells !! None = Some (RList (drop (length names) cells)).
Proof.
  intros Hlt. unfold DictReader.row_dict.
  rewrite (proj2 (Nat.ltb_lt _ _) Hlt). apply lookup_insert_eq.
Qed.

Lemma mapM_length {A B : Type} (f : A -> result B) (l : list A) (ys : list B) :
  mapM f l = Ok ys -> length ys = length l.
Proof.
  revert ys. induction l as [|x l IH]; intros ys; simpl.
  - by intros [= <-].
  - destruct (f x); [|done]. simpl. destruct (mapM f l); [|done]. simpl.
    intros [= <-]. simpl. f_equal. by apply IH.
Qed.

Lemma coerce_fields_spec (row : gmap (option string) rowval) (fs : list Field.t)
    (cs : list string) (acc : gmap string pyval) :
  length fs <= length cs ->
  (forall i f c, fs !! i = Some f -> cs !! i = Some c ->
                 row !! Some (Field.name f) = Some (RStr c)) ->
  DataclassReader.coerce_fields fs row acc
  = rbind (mapM (fun fc : Field.t * string => Field.type fc.1 (RStr fc.2)) (zip fs cs))
          (fun vs => Ok (dict_update acc (zip (Field.name <$> fs) vs))).
Proof.
  revert cs acc. induction fs as [|f fs IH]; intros cs acc Hlen Hrow; [done|].
  destruct cs as [|c cs]; [simpl in Hlen; lia|].
  simpl. rewrite (Hrow 0 f c) by done.
  destruct (Field.type f (RStr c)) as [v|e]; [|done]. simpl.
  rewrite (IH cs); [|simpl in Hlen; lia|].
  - by destruct (mapM _ (zip fs cs)).
  - intros i f' c' Hf' Hc'. by apply (Hrow (S i)).
Qed.

Lemma mapM_kwargs (cname : string) (kw : gmap string pyval) (fs : list Field.t)
    (vs : list pyval) :
  length fs = length vs ->
  (forall i f v, fs !! i = Some f -> vs !! i = Some v -> kw !! Field.name f = Some v) ->
  mapM (fun f : Field.t =>
          match kw !! Field.name f with
          | Some v => Ok (Field.name f, v)
          | None => Raise (TypeError (cname +:+ ".__init__() missing required argument: "
                                      +:+ Str.repr (Field.name f)))
          end) fs
  = Ok (zip (Field.name <$> fs) vs).
Proof.
  revert vs. induction fs as [|f fs IH]; intros vs Hlen Hkw.
  - by destruct vs.
  - destruct vs as [|v vs]; [done|].
    simpl. rewrite (Hkw 0 f v) by done. simpl.
    rewrite (IH vs); [done|by injection Hlen|].
    intros i f' v' Hf' Hv'. by apply (Hkw (S i)).
Qed.

Lemma construct_dict (dc : dataclass) (vs : list pyval) :
  NoDup (field_names dc) -> length vs = length (fields dc) ->
  construct dc (dict_update ∅ (zip (field_names dc) vs))
  = Ok {| cls := __name__ dc; attrs := zip (field_names dc) vs |}.
Proof.
  intros Hnd Hlen.
  assert (length (field_names dc) = length vs) as Hlen'.
  { unfold field_names. rewrite length_fmap. lia. }
  unfold construct. rewrite bool_decide_true.
  - unfold field_names at 2. rewrite (mapM_kwargs _ _ _ vs); [done|lia|].
    intros i f v Hf Hv. apply (dict_update_lookup _ _ i).
    + by rewrite fst_zip by lia.
    + unfold field_names. rewrite lookup_zip_with, list_lookup_fmap, Hf, Hv. reflexivity.
  - rewrite dict_update_dom, fst_zip by lia. by rewrite dom_empty_L, union_empty_l_L.
Qed.

Lemma row_to_dataclass_spec (self : DataclassReader.t) (cells : list string) :
  NoDup (field_names (DataclassReader.dataclass_type self)) ->
  length (fields (DataclassReader.dataclass_type self)) <= length cells ->
  DataclassReader._row_to_dataclass self
    (DictReader.row_dict (field_names (DataclassReader.dataclass_type self)) cells)
  = decode_cells (DataclassReader.dataclass_type self) cells.
Proof.
  intros Hnd Hlen. unfold DataclassReader._row_to_dataclass, decode_cells.
  set (dc := DataclassReader.dataclass_type self) in *.
  rewrite (coerce_fields_spec _ _ cells); [|done|].
  - destruct (mapM _ (zip (fields dc) cells)) as [vs|e] eqn:Hvs; [|done].
    simpl. apply construct_dict; [done|].
    apply mapM_length in Hvs. rewrite Hvs, length_zip. lia.
  - intros i f c Hf Hc. apply (row_dict_lookup _ _ i); [done| |  |done].
    + unfold field_names. rewrite length_fmap. lia.
    + unfold field_names. by rewrite list_lookup_fmap, Hf.
Qed.

(** Advancing when the row reader delivers [cells], at least as many as
    there are fields. *)
Lemma next_of_cells (self : DataclassReader.t) (cells : list string) (f' : TextIO.t) :
  DictReader.fieldnames (DataclassReader._reader self)
  = field_names (DataclassReader.dataclass_type self) ->
  NoDup (field_names (DataclassReader.dataclass_type self)) ->
  DictReader.next_row (length (TextIO.lines (DataclassReader._fin self)))
    (DictReader.delimiter (DataclassReader._reader self)) (DataclassReader._fin self)
  = Some (Ok cells, f') ->
  length (fields (DataclassReader.dataclass_type self)) <= length cells ->
  DictReader.next (DataclassReader._reader self) (DataclassReader._fin self)
  = (Ok (DictReader.row_dict (field_names (DataclassReader.dataclass_type self)) cells), f')
  /\ DataclassReader.__next__ self
     = (decode_cells (DataclassReader.dataclass_type self) cells,
        DataclassReader.set_fin self f').
Proof.
  intros Hnames Hnd Hrow Hlen.
  unfold DataclassReader.__next__, DictReader.next. rewrite Hrow, Hnames.
  split; [done|]. by rewrite row_to_dataclass_spec.
Qed.

Lemma zip_take_r {A B : Type} (l : list A) (k : list B) :
  zip l (take (length l) k) = zip l k.
Proof.
  revert k. induction l as [|x l IH]; intros k; [done|].
  destruct k as [|y k]; [done|]. simpl. by rewrite IH.
Qed.

Lemma decode_cells_take (dc : dataclass) (cells : list string) :
  decode_cells dc (take (length (fields dc)) cells) = decode_cells dc cells.
Proof. unfold decode_cells. by rewrite zip_take_r. Qed.

(** C10: when the row reader delivers more cells than there are fields,
    the surplus goes under the rest key [None] of the row dictionary,
    which no field looks up, and advancing returns the record made from
    the first cells, one per field in declaration order. *)
Theorem surplus_cells_discarded (self : DataclassReader.t) (cells : list string)
    (f' : TextIO.t) (record : instance) :
  let dc := DataclassReader.dataclass_type self in
  DictReader.fieldnames (DataclassReader._reader self) = field_names dc ->
  NoDup (field_names dc) ->
  DictReader.next_row (length (TextIO.lines (DataclassReader._fin self)))
    (DictReader.delimiter (DataclassReader._reader self)) (DataclassReader._fin self)
  = Some (Ok cells, f') ->
  length (fields dc) < length cells ->
  decode_cells dc (take (length (fields dc)) cells) = Ok record ->
  exists row,
    DictReader.next (DataclassReader._reader self) (DataclassReader._fin self) = (Ok row, f')
    /\ row !! None = Some (RList (drop (length (fields dc)) cells))
    /\ DataclassReader.__next__ self = (Ok record, DataclassReader.set_fin self f').
Proof.
  intros dc Hnames Hnd Hrow Hlen Hdec.
  destruct (next_of_cells self cells f' Hnames Hnd Hrow) as [Hnext Hadv]; [fold dc; lia|].
  eexists. split; [exact Hnext|]. split.
  - rewrite row_dict_rest; unfold field_names; rewrite length_fmap; done.
  - rewrite Hadv. fold dc. by rewrite <- decode_cells_take, Hdec.
Qed.

Lemma surplus_cells_discarded_witness :
  DataclassReader.__next__
    (reader_at FakeDataclass [row_line Str.TAB ["abc"; "1"; "extra"]] false)
  = (Ok {| cls := "FakeDataclass"; attrs := [("foo", VStr "abc"); ("bar", VInt 1)] |},
     reader_at FakeDataclass [] false).
Proof.
  destruct (surplus_cells_discarded
              (reader_at FakeDataclass [row_line Str.TAB ["abc"; "1"; "extra"]] false)
              ["abc"; "1"; "extra"]
              {| TextIO.lines := []; TextIO.closed := false |}
              {| cls := "FakeDataclass"; attrs := [("foo", VStr "abc"); ("bar", VInt 1)] |})
    as (row & _ & _ & Hadv).
  - reflexivity.
  - apply (bool_decide_unpack _). vm_compute. exact I.
  - reflexivity.
  - simpl. lia.
  - reflexivity.
  - exact Hadv.
Defined.

(** ** Coercion failures *)

Lemma coerce_fields_failure (row : gmap (option string) rowval)
    (before : list Field.t) (field : Field.t) (after : list Field.t)
    (value : rowval) (e : exn) (acc : gmap string pyval) :
  Forall (fun fd => exists val v, row !! Some (Field.name fd) = Some val
                                  /\ Field.type fd val = Ok v) before ->
  row !! Some (Field.name field) = Some value ->
  Field.type field value = Raise e ->
  DataclassReader.coerce_fields (before ++ field :: after) row acc = Raise e.
Proof.
  intros Hbefore Hval He. revert acc.
  induction Hbefore as [|fd before (val & v & Hl & Hv) _ IH]; intros acc; simpl.
  - by rewrite Hval, He.
  - rewrite Hl, Hv. simpl. apply IH.
Qed.

(** C4 (amended): when the coercion function of a field fails on the value
    the row holds for it, while those of the fields declared before it
    succeed, advancing to that row raises that very error; no record is
    returned for the row, and the stream is past it. *)
Theorem next_raises_coercion_error (self : DataclassReader.t)
    (row : gmap (option string) rowval) (f' : TextIO.t)
    (before : list Field.t) (field : Field.t) (after : list Field.t)
    (value : rowval) (e : exn) :
  DictReader.next (DataclassReader._reader self) (DataclassReader._fin self) = (Ok row, f') ->
  fields (DataclassReader.dataclass_type self) = before ++ field :: after ->
  Forall (fun fd => exists val v, row !! Some (Field.name fd) = Some val
                                  /\ Field.type fd val = Ok v) before ->
  row !! Some (Field.name field) = Some value ->
  Field.type field value = Raise e ->
  DataclassReader.__next__ self = (Raise e, DataclassReader.set_fin self f').
Proof.
  intros Hnext Hfields Hbefore Hval He.
  unfold DataclassReader.__next__. rewrite Hnext.
  unfold DataclassReader._row_to_dataclass. rewrite Hfields.
  by rewrite (coerce_fields_failure _ _ _ _ value e).
Qed.

Lemma next_raises_coercion_error_witness :
  DataclassReader.__next__
    (reader_at FakeDataclass [row_line Str.TAB ["abc"; "notanumber"]] false)
  = (Raise (ValueError "invalid literal for int() with base 10: 'notanumber'"),
     reader_at FakeDataclass [] false).
Proof.
  apply (next_raises_coercion_error
           (reader_at FakeDataclass [row_line Str.TAB ["abc"; "notanumber"]] false)
           (DictReader.row_dict ["foo"; "bar"] ["abc"; "notanumber"])
           {| TextIO.lines := []; TextIO.closed := false |}
           [Field.mk "foo" Builtins.str] (Field.mk "bar" Builtins.int) []
           (RStr "notanumber")).
  - reflexivity.
  - reflexivity.
  - constructor; [|constructor]. exists (RStr "abc"), (VStr "abc"). split; reflexivity.
  - reflexivity.
  - reflexivity.
Defined.

(** C4 (as stated, refuted): a row with the wrong number of cells need not
    raise. With a surplus cell the record is made from the first cells;
    with a missing cell the field type is called on [None], and [str]
    turns that into a value. *)
Lemma wrong_cell_count_decodes :
  (exists r r', open_default file_surplus FakeDataclass = Ok r
     /\ DataclassReader.__next__ r
        = (Ok {| cls := "FakeDataclass";
                 attrs := [("foo", VStr "abc"); ("bar", VInt 1)] |}, r'))
  /\ (exists r r', open_default file_short FakeQuoted = Ok r
        /\ DataclassReader.__next__ r
           = (Ok {| cls := "FakeDataclass";
                    attrs := [("id", VStr "fake"); ("title", VStr "None")] |}, r')).
Proof.
  split; eexists _, _; (split; [reflexivity|]); vm_compute; reflexivity.
Qed.

(** ** The bounds of the loops are never reached *)

Lemma iternext_loop_length (d : ascii) (p : csv.parser) (lines : list string)
    (r : result (list string)) (rest : list string) :
  csv.iternext_loop d p lines = (r, rest) -> length rest <= length lines.
Proof.
  revert p. induction lines as [|l lines IH]; intros p; simpl.
  - destruct (_ || _); intros [= _ <-]; done.
  - destruct (rbind _ _) as [p2|e]; [|intros [= _ <-]; lia].
    destruct (csv.ParserState_eqb _ _); [intros [= _ <-]; lia|].
    intros H%IH. lia.
Qed.

Lemma Reader_iternext_shorter (d : ascii) (f f' : TextIO.t) (row : list string) :
  csv.Reader_iternext d f = (Ok row, f') ->
  length (TextIO.lines f') < length (TextIO.lines f).
Proof.
  unfold csv.Reader_iternext. destruct (TextIO.closed f); [done|].
  destruct (TextIO.lines f) as [|l lines]; [done|].
  simpl. destruct (rbind _ _) as [p2|e]; [|done].
  destruct (csv.ParserState_eqb _ _); [intros [= _ <-]; simpl; lia|].
  destruct (csv.iternext_loop d p2 lines) as [r rest] eqn:Hloop.
  intros [= _ <-]. simpl. apply iternext_loop_length in Hloop. lia.
Qed.

(** The bound on the empty rows passed over is never reached. *)
Lemma next_row_enough (d : ascii) (fuel : nat) (f : TextIO.t) :
  length (TextIO.lines f) <= fuel ->
  exists r, DictReader.next_row fuel d f = Some r.
Proof.
  revert f. induction fuel as [|fuel IH]; intros f Hlen; simpl.
  - destruct (csv.Reader_iternext d f) as [[[|c row]|e] f'] eqn:Hn; eauto.
    apply Reader_iternext_shorter in Hn. lia.
  - destruct (csv.Reader_iternext d f) as [[[|c row]|e] f'] eqn:Hn; eauto.
    apply IH. apply Reader_iternext_shorter in Hn. lia.
Qed.

Lemma next_row_shorter (d : ascii) (fuel : nat) (f f' : TextIO.t) (row : list string) :
  DictReader.next_row fuel d f = Some (Ok row, f') ->
  length (TextIO.lines f') < length (TextIO.lines f).
Proof.
  revert f. induction fuel as [|fuel IH]; intros f; simpl.
  - destruct (csv.Reader_iternext d f) as [[[|c row']|e] f''] eqn:Hn; [done| |done].
    intros [= _ <-]. by apply Reader_iternext_shorter in Hn.
  - destruct (csv.Reader_iternext d f) as [[[|c row']|e] f''] eqn:Hn; [| |done].
    + intros H%IH. apply Reader_iternext_shorter in Hn. lia.
    + intros [= _ <-]. by apply Reader_iternext_shorter in Hn.
Qed.

Lemma next_shorter (self self' : DataclassReader.t) (record : instance) :
  DataclassReader.__next__ self = (Ok record, self') ->
  length (TextIO.lines (DataclassReader._fin self'))
  < length (TextIO.lines (DataclassReader._fin self)).
Proof.
  unfold DataclassReader.__next__, DictReader.next.
  destruct (DictReader.next_row _ _ _) as [[[row|e] f']|] eqn:Hrow; [| |done].
  - intros [= _ <-]. simpl. by apply next_row_shorter in Hrow.
  - done.
Qed.

(** With more fuel than lines left, the iteration runs to its end. *)
Lemma iterate_enough (fuel : nat) (self : DataclassReader.t) :
  length (TextIO.lines (DataclassReader._fin self)) < fuel ->
  exists res, DataclassReader.iterate fuel self = Some res.
Proof.
  revert self. induction fuel as [|fuel IH]; intros self Hlen; [lia|].
  simpl. destruct (DataclassReader.__next__ self) as [[record|e] self'] eqn:Hn.
  - apply next_shorter in Hn. destruct (IH self') as [[[rows en] s''] ->]; [lia|]. eauto.
  - destruct e; eauto.
Qed.

(** ** Field names and the fieldname row *)

Lemma all_chars_join (P : ascii -> bool) (d : ascii) (l : list string) :
  P d = true ->
  Forall (fun s => all_chars P s = true) l ->
  all_chars P (Str.join (String d EmptyString) l) = true.
Proof.
  intros Hd Hall. induction Hall as [|x l Hx Hl IH]; [done|].
  destruct l as [|y l]; [done|].
  rewrite join_cons, !all_chars_app, Hx, IH. simpl. by rewrite Hd.
Qed.

Lemma nonspace_not_newline (c : ascii) : nonspace c = true -> not_newline c = true.
Proof.
  unfold nonspace, not_newline, csv.is_newline. intros Hc.
  destruct (Ascii.eqb_spec c Str.LF) as [->|_]; [done|].
  destruct (Ascii.eqb_spec c Str.CR) as [->|_]; done.
Qed.

Lemma plain_not_newline (d c : ascii) : plain d c = true -> not_newline c = true.
Proof. unfold plain. by intros [_ H]%andb_true_iff. Qed.

Lemma field_name_ok_inv (d : ascii) (n : string) :
  field_name_ok d n = true ->
  n <> EmptyString /\ all_chars nonspace n = true /\ all_chars (is_not d) n = true.
Proof.
  unfold field_name_ok. intros [[H1 H2]%andb_true_iff H3]%andb_true_iff.
  repeat split; try done. apply negb_true_iff in H1. by apply eqb_neq.
Qed.

Lemma join_rstrip (d : ascii) (names : list string) :
  names <> [] ->
  Forall (fun n => field_name_ok d n = true) names ->
  Str.join (String d EmptyString) names <> EmptyString
  /\ Str.rstrip (Str.join (String d EmptyString) names)
     = Str.join (String d EmptyString) names.
Proof.
  intros Hne Hall. induction Hall as [|n l Hn Hl IH]; [done|].
  apply field_name_ok_inv in Hn as (Hn & Hns & _).
  destruct l as [|m l].
  - split; [done|]. by apply rstrip_nonspace.
  - destruct IH as [IHne IHr]; [done|].
    rewrite join_cons, <- app_assoc_s. split.
    + intros [_ ?]%sapp_eq_nil. done.
    + by apply rstrip_app_fixed.
Qed.

Section HeaderLine.

Variable d : ascii.
Variable names : list string.
Hypothesis names_nonempty : names <> [].
Hypothesis names_ok : Forall (fun n => field_name_ok d n = true) names.

Let header : string := Str.join (String d EmptyString) names.

Lemma header_first_char :
  exists c s, header = String c s /\ Str.isspace c = false.
Proof.
  unfold header. destruct names as [|n l]; [done|].
  inversion names_ok as [|? ? Hn _]; subst.
  apply field_name_ok_inv in Hn as (Hne & Hns & _).
  destruct n as [|c n]; [done|]. simpl in Hns.
  apply andb_true_iff in Hns as [Hc _]. apply negb_true_iff in Hc.
  exists c. destruct l; eexists; (split; [reflexivity|done]).
Qed.

Lemma header_rstrip : header <> EmptyString /\ Str.rstrip header = header.
Proof. apply join_rstrip; done. Qed.

Lemma header_strip : Str.strip (header +:+ DataclassReader.nl) = header.
Proof.
  destruct header_first_char as (c & s & Hh & Hc).
  destruct header_rstrip as [_ Hr].
  unfold Str.strip. rewrite Hh, sapp_cons. simpl. rewrite Hc.
  rewrite <- sapp_cons, <- Hh. by rewrite rstrip_app_blank.
Qed.

Lemma header_split : Str.split header (String d EmptyString) = Ok names.
Proof.
  unfold Str.split, header. rewrite split_go_join; [done|done|].
  eapply Forall_impl; [exact names_ok|].
  intros n Hn. by apply field_name_ok_inv in Hn as (_ & _ & ?).
Qed.

Lemma header_no_newline : usable_delimiter d = true -> all_chars not_newline header = true.
Proof.
  intros Hd. apply all_chars_join.
  - unfold usable_delimiter in Hd. by apply andb_true_iff in Hd as [_ ?].
  - eapply Forall_impl; [exact names_ok|].
    intros n Hn. apply field_name_ok_inv in Hn as (_ & Hn & _).
    eapply all_chars_impl; [|exact Hn]. apply nonspace_not_newline.
Qed.

End HeaderLine.

(** ** The scenarios of the specification *)

Lemma init_missing_header_witness :
  DataclassReader._get_header DataclassReader.default_delimiter "#"
    (TextIO.of_contents EmptyString)
  = (Ok None, {| TextIO.lines := []; TextIO.closed := false |})
  /\ open_default EmptyString FakeDataclass
     = Raise (ValueError "Could not find a header in the provided file: test.txt").
Proof.
  apply (init_missing_header (single_file "test.txt" EmptyString) "test.txt" EmptyString
           FakeDataclass DataclassReader.default_delimiter "#").
  - reflexivity.
  - constructor.
Defined.


(** Scenario B: after the preface and the fieldname row, the iteration
    returns the one record of the file. *)
Example scenario_B_rows :
  exists r r',
    open_default file_B FakeDataclass = Ok r
    /\ DataclassReader.iterate 2 r
       = Some ([{| cls := "FakeDataclass";
                   attrs := [("foo", VStr "abc"); ("bar", VInt 1)] |}], Exhausted, r').
Proof. eexists _, _. split; [reflexivity|]. vm_compute. reflexivity. Qed.

(** Scenario E: the iteration fails at the first row with the error of
    [int], and no record has been returned. *)
Example scenario_E_rows :
  exists r r',
    open_default file_E FakeDataclass = Ok r
    /\ DataclassReader.iterate 2 r
       = Some ([], Failed (ValueError "invalid literal for int() with base 10: 'notanumber'"), r').
Proof. eexists _, _. split; [reflexivity|]. vm_compute. reflexivity. Qed.

Lemma advance_after_end_witness :
  DataclassReader.__next__
    (DataclassReader.__exit__ (reader_at FakeDataclass [row_line Str.TAB ["abc"; "1"]] false))
  = (Raise (ValueError "I/O operation on closed file."),
     reader_at FakeDataclass [row_line Str.TAB ["abc"; "1"]] true)
  /\ DataclassReader.__next__ (reader_at FakeDataclass [] false)
     = (Raise StopIteration, reader_at FakeDataclass [] false).
Proof.
  split.
  - apply (advance_after_end
             (DataclassReader.__exit__
                (reader_at FakeDataclass [row_line Str.TAB ["abc"; "1"]] false))).
    left. reflexivity.
  - apply (advance_after_end (reader_at FakeDataclass [] false)).
    right. reflexivity.
Defined.

(** The constructor on the file of scenario A gives the reader bound to
    [FakeDataclass] at the first data row. *)
Example open_scenario_A :
  open_default file_A FakeDataclass
  = Ok (reader_at FakeDataclass [row_line Str.TAB ["abc"; "1"]] false).
Proof. reflexivity. Qed.

(** * Further properties of the reader *)

(** ** What the header parser returns *)

Lemma scan_preface_some_inv (cc : string) (ls acc pre' : list string) (hl : string)
    (rest : list string) :
  DataclassReader.scan_preface cc acc ls = (Some (pre', hl), rest) ->
  exists pre, ls = pre ++ hl :: rest
              /\ Forall (preface_line cc) pre
              /\ ~ preface_line cc hl
              /\ pre' = acc ++ (Str.strip <$> pre).
Proof.
  revert acc. induction ls as [|l ls IH]; intros acc; simpl; [done|].
  destruct (Str.startswith l cc || String.eqb (Str.strip l) EmptyString) eqn:Ht.
  - intros (pre & -> & Hpre & Hhl & ->)%IH.
    exists (l :: pre). repeat split; try done.
    + constructor; [by apply preface_line_test|done].
    + by rewrite <- List.app_assoc.
  - intros [= <- <- <-]. exists []. repeat split; try done.
    + rewrite preface_line_test. congruence.
    + simpl. by rewrite app_nil_r.
Qed.

Lemma scan_preface_none_inv (cc : string) (ls acc rest : list string) :
  DataclassReader.scan_preface cc acc ls = (None, rest) ->
  Forall (preface_line cc) ls /\ rest = [].
Proof.
  revert acc. induction ls as [|l ls IH]; intros acc; simpl.
  - by intros [= <-].
  - destruct (Str.startswith l cc || String.eqb (Str.strip l) EmptyString) eqn:Ht; [|done].
    intros [Hls ->]%IH. split; [|done].
    constructor; [by apply preface_line_test|done].
Qed.

(** X1: whenever the header parser returns a header, the stream was open
    and its lines were a run of preface lines, then one line that is not a
    preface line, then the lines still in the stream: the parser has read
    exactly up to the fieldname row. The stored preface is that run, each
    line stripped, and the fieldnames are the split of the stripped
    fieldname row. *)
Theorem get_header_some_inv (delimiter header_comment_char : string)
    (reader reader' : TextIO.t) (hd : FileHeader) :
  DataclassReader._get_header delimiter header_comment_char reader = (Ok (Some hd), reader') ->
  TextIO.closed reader = false /\ TextIO.closed reader' = false
  /\ exists pre hl,
       TextIO.lines reader = pre ++ hl :: TextIO.lines reader'
       /\ Forall (preface_line header_comment_char) pre
       /\ ~ preface_line header_comment_char hl
       /\ preface hd = Str.strip <$> pre
       /\ Str.split (Str.strip hl) delimiter = Ok (fieldnames hd).
Proof.
  unfold DataclassReader._get_header.
  destruct (TextIO.closed reader); [done|].
  destruct (DataclassReader.scan_preface _ _ _) as [[[pre' hl]|] rest] eqn:Hscan; [|done].
  apply scan_preface_some_inv in Hscan as (pre & Hlines & Hpre & Hhl & ->).
  destruct (Str.split (Str.strip hl) delimiter) as [names|e] eqn:Hsplit; [|done].
  simpl. intros [= <- <-]. simpl. repeat split; try done.
  exists pre, hl. by repeat split.
Qed.

Lemma get_header_some_inv_witness :
  exists pre hl,
    TextIO.lines (TextIO.of_contents file_B) = pre ++ [hl; row_line Str.TAB ["abc"; "1"]]
    /\ ["# note"; EmptyString] = Str.strip <$> pre
    /\ Str.split (Str.strip hl) DataclassReader.tab = Ok ["foo"; "bar"].
Proof.
  destruct (get_header_some_inv DataclassReader.tab "#" (TextIO.of_contents file_B)
              {| TextIO.lines := [row_line Str.TAB ["abc"; "1"]]; TextIO.closed := false |}
              {| preface := ["# note"; EmptyString]; fieldnames := ["foo"; "bar"] |})
    as (_ & _ & pre & hl & H1 & _ & _ & H2 & H3).
  - reflexivity.
  - exists pre, hl. split; [exact H1|]. split; [exact H2|exact H3].
Defined.

(** X2: the header parser reports that there is no header only for an
    open stream all of whose lines are preface lines, and it has then read
    the stream to its end. *)
Theorem get_header_none_inv (delimiter header_comment_char : string)
    (reader reader' : TextIO.t) :
  DataclassReader._get_header delimiter header_comment_char reader = (Ok None, reader') ->
  TextIO.closed reader = false
  /\ Forall (preface_line header_comment_char) (TextIO.lines reader)
  /\ reader' = {| TextIO.lines := []; TextIO.closed := false |}.
Proof.
  unfold DataclassReader._get_header.
  destruct (TextIO.closed reader); [done|].
  destruct (DataclassReader.scan_preface _ _ _) as [[[pre' hl]|] rest] eqn:Hscan.
  - destruct (Str.split (Str.strip hl) delimiter); done.
  - apply scan_preface_none_inv in Hscan as [Hall ->]. by intros [= <-].
Qed.

Lemma get_header_none_inv_witness :
  Forall (preface_line "#")
    (TextIO.lines (TextIO.of_contents (file_of_lines ["# only"; "  "; EmptyString]))).
Proof.
  destruct (get_header_none_inv DataclassReader.tab "#"
              (TextIO.of_contents (file_of_lines ["# only"; "  "; EmptyString]))
              {| TextIO.lines := []; TextIO.closed := false |})
    as (_ & H & _).
  - reflexivity.
  - exact H.
Defined.

(** ** The fieldnames and the fieldname row *)

Lemma join_split_go (d : ascii) (s cur : string) :
  Str.join (String d EmptyString) (Str.split_go (String d EmptyString) s O cur)
  = cur +:+ s.
Proof.
  revert cur. induction s as [|c s IH]; intros cur.
  - simpl. by rewrite sapp_nil_r.
  - cbn [Str.split_go]. rewrite prefix_char.
    destruct (Ascii.eqb_spec d c) as [->|Hne].
    + simpl Nat.sub.
      destruct (Str.split_go (String c EmptyString) s O EmptyString) as [|x l] eqn:Hs.
      { by apply split_go_nonempty in Hs. }
      rewrite join_cons, <- Hs, IH. reflexivity.
    + rewrite IH. by rewrite sapp_snoc_cons.
Qed.

Lemma split_go_pieces (d : ascii) (s cur : string) :
  all_chars (is_not d) cur = true ->
  Forall (fun piece => all_chars (is_not d) piece = true)
         (Str.split_go (String d EmptyString) s O cur).
Proof.
  revert cur. induction s as [|c s IH]; intros cur Hcur.
  - by constructor.
  - cbn [Str.split_go]. rewrite prefix_char.
    destruct (Ascii.eqb_spec d c) as [->|Hne].
    + constructor; [done|]. by apply IH.
    + apply IH. rewrite all_chars_app, Hcur. simpl.
      unfold is_not. rewrite andb_true_r. apply negb_true_iff.
      apply Ascii.eqb_neq. congruence.
Qed.

(** X3: with a one-character delimiter, the fieldnames of a returned
    header, joined by the delimiter, give back the fieldname row stripped
    of surrounding white space, and no fieldname holds the delimiter. *)
Theorem get_header_fieldnames_join (d : ascii) (header_comment_char : string)
    (reader reader' : TextIO.t) (hd : FileHeader) :
  DataclassReader._get_header (String d EmptyString) header_comment_char reader
  = (Ok (Some hd), reader') ->
  (exists pre hl,
     TextIO.lines reader = pre ++ hl :: TextIO.lines reader'
     /\ Str.join (String d EmptyString) (fieldnames hd) = Str.strip hl)
  /\ Forall (fun n => all_chars (is_not d) n = true) (fieldnames hd).
Proof.
  unfold DataclassReader._get_header.
  destruct (TextIO.closed reader); [done|].
  destruct (DataclassReader.scan_preface _ _ _) as [[[pre' hl]|] rest] eqn:Hscan; [|done].
  apply scan_preface_some_inv in Hscan as (pre & Hlines & _).
  simpl. intros [= <- <-]. simpl. split.
  - exists pre, hl. split; [done|]. by rewrite join_split_go.
  - by apply split_go_pieces.
Qed.

Lemma get_header_fieldnames_join_witness :
  (exists pre hl,
     TextIO.lines (TextIO.of_contents file_trailing_delimiter)
     = pre ++ [hl; row_line Str.TAB ["abc"; "1"; "x"]]
     /\ Str.join DataclassReader.tab ["foo"; "bar"] = Str.strip hl)
  /\ Forall (fun n => all_chars (is_not Str.TAB) n = true) ["foo"; "bar"].
Proof.
  apply (get_header_fieldnames_join Str.TAB "#"
           (TextIO.of_contents file_trailing_delimiter)
           {| TextIO.lines := [row_line Str.TAB ["abc"; "1"; "x"]]; TextIO.closed := false |}
           {| preface := []; fieldnames := ["foo"; "bar"] |}).
  reflexivity.
Defined.

(** ** The constructor *)

Lemma init_unfold (fs : gmap string fs_entry) (path contents : string) (dc : dataclass)
    (delimiter header_comment_char : string) :
  fs !! path = Some (RegularFile true contents) ->
  DataclassReader.__init__ fs path (Dataclass dc) delimiter header_comment_char
  = match DataclassReader._get_header delimiter header_comment_char
            (TextIO.of_contents contents) with
    | (Raise e, _) => Raise e
    | (Ok None, _) => Raise (ValueError (DataclassReader.missing_header_message path))
    | (Ok (Some hd), fin') =>
        if bool_decide (fieldnames hd ≠ field_names dc)
        then Raise (ValueError (DataclassReader.mismatch_message dc path))
        else
          rbind (DictReader.new (fieldnames hd) delimiter)
            (fun rd =>
               Ok {| DataclassReader.dataclass_type := dc;
                     DataclassReader.delimiter := delimiter;
                     DataclassReader.header_comment_char := header_comment_char;
                     DataclassReader._fin := fin';
                     DataclassReader._header := hd;
                     DataclassReader._reader := rd |})
    end.
Proof.
  intros Hfs. unfold DataclassReader.__init__, assert_file_is_readable, path_open.
  rewrite Hfs. cbn [rbind assert_dataclass_is_valid].
  destruct (DataclassReader._get_header _ _ _) as [[[hd|]|e] fin']; reflexivity.
Qed.

(** X4: with an empty delimiter the constructor fails on every readable
    file that has a line outside the preface: splitting the fieldname row
    raises [ValueError] for the empty separator. *)
Theorem init_empty_delimiter (fs : gmap string fs_entry) (path contents : string)
    (dc : dataclass) (header_comment_char : string) :
  fs !! path = Some (RegularFile true contents) ->
  ~ Forall (preface_line header_comment_char) (TextIO.readlines contents) ->
  DataclassReader.__init__ fs path (Dataclass dc) EmptyString header_comment_char
  = Raise (ValueError "empty separator").
Proof.
  intros Hfs Hnot. rewrite (init_unfold _ _ contents) by done.
  unfold DataclassReader._get_header, TextIO.of_contents. simpl.
  destruct (DataclassReader.scan_preface _ _ _) as [[[pre' hl]|] rest] eqn:Hscan; [done|].
  by apply scan_preface_none_inv in Hscan as [Hall _].
Qed.

Lemma init_empty_delimiter_witness :
  DataclassReader.__init__ (single_file "test.txt" file_A) "test.txt"
    (Dataclass FakeDataclass) EmptyString "#"
  = Raise (ValueError "empty separator").
Proof.
  apply (init_empty_delimiter (single_file "test.txt" file_A) "test.txt" file_A).
  - reflexivity.
  - intros H. inversion H as [|? ? [Hl|Hl] _]; vm_compute in Hl; discriminate Hl.
Defined.

(** X5: a reader the constructor returns is bound to the record type it
    was given: the delimiter is one character, which is the row reader's;
    the fieldnames of the header and the keys of the row reader are the
    declared field names in order; the stream is open and holds exactly the
    lines of the file after the fieldname row. *)
Theorem init_ok_inv (fs : gmap string fs_entry) (path : string) (dataclass_type : pytype)
    (delimiter header_comment_char : string) (r : DataclassReader.t) :
  DataclassReader.__init__ fs path dataclass_type delimiter header_comment_char = Ok r ->
  exists dc d contents pre hl,
    dataclass_type = Dataclass dc
    /\ fs !! path = Some (RegularFile true contents)
    /\ delimiter = String d EmptyString
    /\ DataclassReader.dataclass_type r = dc
    /\ DataclassReader.delimiter r = delimiter
    /\ DataclassReader.header_comment_char r = header_comment_char
    /\ fieldnames (DataclassReader._header r) = field_names dc
    /\ DataclassReader._reader r
       = {| DictReader.fieldnames := field_names dc; DictReader.delimiter := d |}
    /\ TextIO.closed (DataclassReader._fin r) = false
    /\ TextIO.readlines contents = pre ++ hl :: TextIO.lines (DataclassReader._fin r)
    /\ Forall (preface_line header_comment_char) pre
    /\ preface (DataclassReader._header r) = Str.strip <$> pre.
Proof.
  intros Hinit.
  destruct dataclass_type as [dc|n].
  2:{ unfold DataclassReader.__init__, assert_file_is_readable in Hinit.
      destruct (fs !! path) as [[|[] ?]|]; done. }
  destruct (fs !! path) as [[|[] contents]|] eqn:Hfs;
    try (unfold DataclassReader.__init__, assert_file_is_readable in Hinit;
         rewrite Hfs in Hinit; done).
  rewrite (init_unfold _ _ contents) in Hinit by done.
  destruct (DataclassReader._get_header _ _ _) as [[[hd|]|e] fin'] eqn:Hget; try done.
  destruct (bool_decide (fieldnames hd ≠ field_names dc)) eqn:Hdec; [done|].
  apply bool_decide_eq_false in Hdec. apply dec_stable in Hdec.
  destruct delimiter as [|d [|? ?]]; try done.
  simpl in Hinit. injection Hinit as <-.
  unfold DataclassReader._get_header, TextIO.of_contents in Hget. simpl in Hget.
  destruct (DataclassReader.scan_preface _ _ _) as [[[pre' hl]|] rest] eqn:Hscan; [|done].
  apply scan_preface_some_inv in Hscan as (pre & Hlines & Hpre & _ & ->).
  injection Hget as Hhd <-.
  exists dc, d, contents, pre, hl. simpl. rewrite <- Hdec.
  repeat split; try done.
  by rewrite <- Hhd.
Qed.

Lemma init_ok_inv_witness :
  exists dc d contents pre hl,
    Dataclass FakeDataclass = Dataclass dc
    /\ single_file "test.txt" file_B !! "test.txt" = Some (RegularFile true contents)
    /\ DataclassReader.default_delimiter = String d EmptyString
    /\ TextIO.readlines contents = pre ++ [hl; row_line Str.TAB ["abc"; "1"]]
    /\ ["# note"; EmptyString] = Str.strip <$> pre.
Proof.
  destruct (init_ok_inv (single_file "test.txt" file_B) "test.txt" (Dataclass FakeDataclass)
              DataclassReader.default_delimiter "#"
              {| DataclassReader.dataclass_type := FakeDataclass;
                 DataclassReader.delimiter := DataclassReader.default_delimiter;
                 DataclassReader.header_comment_char := "#";
                 DataclassReader._fin :=
                   {| TextIO.lines := [row_line Str.TAB ["abc"; "1"]];
                      TextIO.closed := false |};
                 DataclassReader._header :=
                   {| preface := ["# note"; EmptyString]; fieldnames := ["foo"; "bar"] |};
                 DataclassReader._reader :=
                   {| DictReader.fieldnames := ["foo"; "bar"];
                      DictReader.delimiter := Str.TAB |} |})
    as (dc & d & contents & pre & hl & H1 & H2 & H3 & _ & _ & _ & _ & _ & _ & H4 & _ & H5).
  - reflexivity.
  - exists dc, d, contents, pre, hl. repeat split; assumption.
Defined.

(** X6: a delimiter that is not exactly one character cannot open a
    reader. When the file has a header whose fieldnames, split on that
    delimiter, equal the field names, the constructor still fails, with the
    [TypeError] of the row reader. *)
Theorem init_long_delimiter (fs : gmap string fs_entry) (path contents : string)
    (dc : dataclass) (delimiter header_comment_char : string)
    (hd : FileHeader) (fin' : TextIO.t) :
  fs !! path = Some (RegularFile true contents) ->
  DataclassReader._get_header delimiter header_comment_char (TextIO.of_contents contents)
  = (Ok (Some hd), fin') ->
  fieldnames hd = field_names dc ->
  String.length delimiter <> 1 ->
  DataclassReader.__init__ fs path (Dataclass dc) delimiter header_comment_char
  = Raise (TypeError (String Str.DQUOTE "delimiter"
                      +:+ String Str.DQUOTE " must be a 1-character string")).
Proof.
  intros Hfs Hget Heq Hlen. rewrite (init_unfold _ _ contents) by done.
  rewrite Hget. rewrite bool_decide_false by (intros Hne; by apply Hne).
  destruct delimiter as [|d [|? ?]]; done.
Qed.

Lemma init_long_delimiter_witness :
  DataclassReader.__init__
    (single_file "test.txt" (file_of_lines ["foo, bar"; "abc, 1"])) "test.txt"
    (Dataclass FakeDataclass) ", " "#"
  = Raise (TypeError (String Str.DQUOTE "delimiter"
                      +:+ String Str.DQUOTE " must be a 1-character string")).
Proof.
  apply (init_long_delimiter
           (single_file "test.txt" (file_of_lines ["foo, bar"; "abc, 1"])) "test.txt"
           (file_of_lines ["foo, bar"; "abc, 1"]) FakeDataclass ", " "#"
           {| preface := []; fieldnames := ["foo"; "bar"] |}
           {| TextIO.lines := ["abc, 1" +:+ DataclassReader.nl]; TextIO.closed := false |}).
  - reflexivity.
  - reflexivity.
  - reflexivity.
  - simpl. lia.
Defined.

Lemma preface_line_empty_prefix (line : string) : preface_line EmptyString line.
Proof. left. by destruct line. Qed.

(** X7: with an empty comment prefix every line begins with the prefix,
    so every line is preface: the constructor finds no header in any
    readable file and fails with the missing-header error. *)
Theorem init_empty_comment_prefix (fs : gmap string fs_entry) (path contents : string)
    (dc : dataclass) (delimiter : string) :
  fs !! path = Some (RegularFile true contents) ->
  DataclassReader.__init__ fs path (Dataclass dc) delimiter EmptyString
  = Raise (ValueError ("Could not find a header in the provided file: " +:+ path)).
Proof.
  intros Hfs. rewrite (init_unfold _ _ contents) by done.
  unfold DataclassReader._get_header, TextIO.of_contents. simpl.
  rewrite scan_preface_all; [done|].
  apply Forall_forall. intros l _. apply preface_line_empty_prefix.
Qed.

Lemma init_empty_comment_prefix_witness :
  DataclassReader.__init__ (single_file "test.txt" file_A) "test.txt"
    (Dataclass FakeDataclass) DataclassReader.default_delimiter EmptyString
  = Raise (ValueError "Could not find a header in the provided file: test.txt").
Proof.
  apply (init_empty_comment_prefix (single_file "test.txt" file_A) "test.txt" file_A).
  reflexivity.
Defined.

(** ** The row decoder on any row dictionary *)

Lemma coerce_fields_lookups (row : gmap (option string) rowval) (fs : list Field.t)
    (acc : gmap string pyval) :
  DataclassReader.coerce_fields fs row acc
  = rbind (mapM (fun f : Field.t =>
                   match row !! Some (Field.name f) with
                   | Some value => Field.type f value
                   | None => Raise (KeyError (Field.name f))
                   end) fs)
          (fun vs => Ok (dict_update acc (zip (Field.name <$> fs) vs))).
Proof.
  revert acc. induction fs as [|f fs IH]; intros acc; [done|].
  simpl. destruct (row !! Some (Field.name f)) as [value|]; [|done].
  destruct (Field.type f value) as [v|e]; [|done]. simpl.
  rewrite IH. by destruct (mapM _ fs).
Qed.

Lemma row_to_dataclass_lookups (self : DataclassReader.t)
    (row : gmap (option string) rowval) :
  NoDup (field_names (DataclassReader.dataclass_type self)) ->
  DataclassReader._row_to_dataclass self row
  = decode_row (DataclassReader.dataclass_type self) row.
Proof.
  intros Hnd. unfold DataclassReader._row_to_dataclass, decode_row.
  rewrite coerce_fields_lookups.
  destruct (mapM _ (fields _)) as [vs|e] eqn:Hvs; [|done].
  simpl. apply construct_dict; [done|]. by apply mapM_length in Hvs.
Qed.

(** X8: for a record type with pairwise distinct field names and any row
    dictionary, the row decoder goes through the fields in declaration
    order, looks each name up in the row and applies the field's type; it
    raises [KeyError] at the first name that is not a key, or the error of
    the first type that fails, and otherwise returns the instance holding
    the converted values under the field names. *)
Theorem row_to_dataclass_decodes (self : DataclassReader.t)
    (row : gmap (option string) rowval) :
  NoDup (field_names (DataclassReader.dataclass_type self)) ->
  DataclassReader._row_to_dataclass self row
  = decode_row (DataclassReader.dataclass_type self) row.
Proof. apply row_to_dataclass_lookups. Qed.

Lemma row_to_dataclass_decodes_witness :
  DataclassReader._row_to_dataclass (reader_at FakeDataclass [] false)
    {[ Some "foo" := RStr "abc" ]}
  = Raise (KeyError "bar").
Proof.
  rewrite (row_to_dataclass_decodes (reader_at FakeDataclass [] false)
             {[ Some "foo" := RStr "abc" ]}).
  - reflexivity.
  - apply (bool_decide_unpack _). vm_compute. exact I.
Defined.

(** ** Rows of any width *)

Lemma fill_rest_lookup_notin (d : gmap (option string) rowval) (keys : list string)
    (k : option string) :
  (forall n, k = Some n -> n ∉ keys) ->
  DictReader.fill_rest d keys !! k = d !! k.
Proof.
  revert d. induction keys as [|key keys IH]; intros d Hk; [done|].
  unfold DictReader.fill_rest in *. simpl. rewrite IH.
  - apply lookup_insert_ne. intros <-. apply (Hk key); [done|]. by left.
  - intros n Hn Hin. apply (Hk n Hn). by right.
Qed.

Lemma fill_rest_lookup_in (d : gmap (option string) rowval) (keys : list string)
    (n : string) :
  n ∈ keys -> DictReader.fill_rest d keys !! Some n = Some RNone.
Proof.
  revert d. induction keys as [|key keys IH]; intros d Hin.
  - by apply elem_of_nil in Hin.
  - unfold DictReader.fill_rest in *. simpl.
    destruct (decide (n ∈ keys)) as [Hin'|Hnotin]; [by apply IH|].
    apply elem_of_cons in Hin as [->|?]; [|done].
    pose proof (fill_rest_lookup_notin (<[Some key:=RNone]> d) keys (Some key)) as Hl.
    unfold DictReader.fill_rest in Hl. rewrite Hl.
    + apply lookup_insert_eq.
    + by intros ? [= <-].
Qed.

Lemma zip_take_l {A B : Type} (l : list A) (k : list B) :
  zip (take (length k) l) k = zip l k.
Proof.
  revert k. induction l as [|x l IH]; intros k; [by destruct k|].
  destruct k as [|y k]; [done|]. simpl. by rewrite IH.
Qed.

Lemma NoDup_take_prefix {A : Type} (n : nat) (l : list A) : NoDup l -> NoDup (take n l).
Proof.
  intros Hnd. rewrite <- (take_drop n l) in Hnd. by apply NoDup_app in Hnd as [? _].
Qed.

Lemma zip_dict_lookup (names cells : list string) (i : nat) (n c : string) :
  NoDup names -> names !! i = Some n -> cells !! i = Some c ->
  DictReader.zip_dict names cells !! Some n = Some (RStr c).
Proof.
  intros Hnd Hn Hc. unfold DictReader.zip_dict.
  apply (dict_update_lookup _ _ i).
  - rewrite <- zip_take_l, fst_zip.
    + apply NoDup_take_prefix. apply NoDup_fmap_2; [apply _|done].
    + rewrite length_take. lia.
  - rewrite lookup_zip_with, !list_lookup_fmap, Hn, Hc. reflexivity.
Qed.

(** The value a row dictionary holds for the field at position [i]. *)
Lemma row_dict_lookup_any (names cells : list string) (i : nat) (n : string) :
  NoDup names -> names !! i = Some n ->
  DictReader.row_dict names cells !! Some n
  = Some (default RNone (RStr <$> cells !! i)).
Proof.
  intros Hnd Hn.
  pose proof (lookup_lt_Some _ _ _ Hn) as Hi.
  unfold DictReader.row_dict.
  destruct (length names <? length cells) eqn:Hlt.
  - apply Nat.ltb_lt in Hlt. rewrite lookup_insert_ne by done.
    destruct (lookup_lt_is_Some_2 cells i) as [c Hc]; [lia|].
    rewrite Hc. simpl. by apply (zip_dict_lookup _ _ i).
  - apply Nat.ltb_ge in Hlt.
    destruct (length cells <? length names) eqn:Hgt.
    + apply Nat.ltb_lt in Hgt.
      destruct (cells !! i) as [c|] eqn:Hc; simpl.
      * rewrite fill_rest_lookup_notin; [by apply (zip_dict_lookup _ _ i)|].
        intros n' [= <-] (j & Hj)%list_elem_of_lookup.
        rewrite lookup_drop in Hj.
        pose proof (lookup_lt_Some _ _ _ Hc).
        assert (i = length cells + j) by (eapply NoDup_lookup; done). lia.
      * apply fill_rest_lookup_in. apply list_elem_of_lookup.
        apply lookup_ge_None in Hc.
        exists (i - length cells). rewrite lookup_drop.
        by replace (length cells + (i - length cells)) with i by lia.
    + apply Nat.ltb_ge in Hgt.
      destruct (lookup_lt_is_Some_2 cells i) as [c Hc]; [lia|].
      rewrite Hc. simpl. by apply (zip_dict_lookup _ _ i).
Qed.

Lemma row_values_lookup (n : nat) (cells : list string) (i : nat) :
  i < n -> row_values n cells !! i = Some (default RNone (RStr <$> cells !! i)).
Proof.
  intros Hi. unfold row_values. rewrite lookup_take_lt by done.
  destruct (cells !! i) as [c|] eqn:Hc; simpl.
  - rewrite lookup_app_l by (rewrite length_fmap; by eapply lookup_lt_Some).
    by rewrite list_lookup_fmap, Hc.
  - apply lookup_ge_None in Hc.
    rewrite lookup_app_r by (rewrite length_fmap; lia).
    rewrite length_fmap. apply lookup_replicate_2. lia.
Qed.

Lemma row_values_length (n : nat) (cells : list string) :
  length (row_values n cells) = n.
Proof.
  unfold row_values. rewrite length_take, length_app, length_fmap, length_replicate. lia.
Qed.

Lemma mapM_ext_zip (row : gmap (option string) rowval) (fs : list Field.t)
    (values : list rowval) :
  length values = length fs ->
  (forall i f v, fs !! i = Some f -> values !! i = Some v ->
                 row !! Some (Field.name f) = Some v) ->
  mapM (fun f : Field.t =>
          match row !! Some (Field.name f) with
          | Some value => Field.type f value
          | None => Raise (KeyError (Field.name f))
          end) fs
  = mapM (fun fv : Field.t * rowval => Field.type fv.1 fv.2) (zip fs values).
Proof.
  revert values. induction fs as [|f fs IH]; intros values Hlen Hrow; [done|].
  destruct values as [|v values]; [done|].
  simpl. rewrite (Hrow 0 f v) by done.
  rewrite (IH values); [done|by injection Hlen|].
  intros i f' v' Hf' Hv'. by apply (Hrow (S i)).
Qed.

(** X10: whatever the number of cells the row reader delivers, advancing
    returns the record (or the error) of the field types applied, in
    declaration order, to the cells in order, with [None] for every field
    past the last cell and nothing for the surplus cells. *)
Theorem next_row_of_any_width (self : DataclassReader.t) (cells : list string)
    (f' : TextIO.t) :
  let dc := DataclassReader.dataclass_type self in
  DictReader.fieldnames (DataclassReader._reader self) = field_names dc ->
  NoDup (field_names dc) ->
  DictReader.next_row (length (TextIO.lines (DataclassReader._fin self)))
    (DictReader.delimiter (DataclassReader._reader self)) (DataclassReader._fin self)
  = Some (Ok cells, f') ->
  DataclassReader.__next__ self
  = (decode_values dc (row_values (length (fields dc)) cells),
     DataclassReader.set_fin self f').
Proof.
  intros dc Hnames Hnd Hrow.
  unfold DataclassReader.__next__, DictReader.next. rewrite Hrow, Hnames.
  rewrite row_to_dataclass_lookups by done. fold dc.
  unfold decode_row, decode_values.
  rewrite (mapM_ext_zip _ _ (row_values (length (fields dc)) cells)); [done| |].
  - apply row_values_length.
  - intros i f v Hf Hv.
    rewrite row_values_lookup in Hv by (by eapply lookup_lt_Some).
    injection Hv as <-. apply row_dict_lookup_any; [done|].
    unfold field_names. by rewrite list_lookup_fmap, Hf.
Qed.

Lemma next_row_of_any_width_witness :
  DataclassReader.__next__ (reader_at FakeQuoted [row_line Str.TAB ["fake"]] false)
  = (Ok {| cls := "FakeDataclass";
           attrs := [("id", VStr "fake"); ("title", VStr "None")] |},
     reader_at FakeQuoted [] false).
Proof.
  apply (next_row_of_any_width (reader_at FakeQuoted [row_line Str.TAB ["fake"]] false)
           ["fake"] {| TextIO.lines := []; TextIO.closed := false |}).
  - reflexivity.
  - apply (bool_decide_unpack _). vm_compute. exact I.
  - reflexivity.
Defined.

(** ** Empty lines among the data rows *)

(** X11: an empty line among the data rows yields no record and raises
    nothing: advancing a reader whose next line is empty gives what
    advancing gives after that line. *)
Theorem next_skips_empty_line (self : DataclassReader.t) (rest : list string) :
  DataclassReader._fin self
  = {| TextIO.lines := DataclassReader.nl :: rest; TextIO.closed := false |} ->
  DataclassReader.__next__ self
  = DataclassReader.__next__
      (DataclassReader.set_fin self {| TextIO.lines := rest; TextIO.closed := false |}).
Proof.
  intros Hfin. unfold DataclassReader.__next__, DictReader.next.
  rewrite Hfin. simpl.
  destruct (next_row_enough (DictReader.delimiter (DataclassReader._reader self))
              (length rest) {| TextIO.lines := rest; TextIO.closed := false |})
    as [[[row|e] f'] ->]; done.
Qed.

Lemma next_skips_empty_line_witness :
  DataclassReader.__next__
    (reader_at FakeDataclass [DataclassReader.nl; row_line Str.TAB ["abc"; "1"]] false)
  = (Ok {| cls := "FakeDataclass"; attrs := [("foo", VStr "abc"); ("bar", VInt 1)] |},
     reader_at FakeDataclass [] false).
Proof.
  rewrite (next_skips_empty_line
             (reader_at FakeDataclass [DataclassReader.nl; row_line Str.TAB ["abc"; "1"]] false)
             [row_line Str.TAB ["abc"; "1"]]).
  - reflexivity.
  - reflexivity.
Defined.

(** ** The stream only moves forward *)

Lemma iternext_loop_suffix (d : ascii) (p : csv.parser) (lines : list string)
    (r : result (list string)) (rest : list string) :
  csv.iternext_loop d p lines = (r, rest) -> rest `suffix_of` lines.
Proof.
  revert p. induction lines as [|l lines IH]; intros p; simpl.
  - destruct (_ || _); intros [= _ <-]; done.
  - destruct (rbind _ _) as [p2|e]; [|intros [= _ <-]; by apply suffix_cons_r].
    destruct (csv.ParserState_eqb _ _); [intros [= _ <-]; by apply suffix_cons_r|].
    intros H%IH. by apply suffix_cons_r.
Qed.

Lemma Reader_iternext_suffix (d : ascii) (f f' : TextIO.t) (r : result (list string)) :
  csv.Reader_iternext d f = (r, f') ->
  TextIO.lines f' `suffix_of` TextIO.lines f /\ TextIO.closed f' = TextIO.closed f.
Proof.
  unfold csv.Reader_iternext. destruct (TextIO.closed f) eqn:Hc.
  - intros [= _ <-]. by rewrite Hc.
  - destruct (csv.iternext_loop _ _ _) as [r' rest] eqn:Hloop.
    intros [= _ <-]. simpl. split; [|done]. by eapply iternext_loop_suffix.
Qed.

Lemma next_row_suffix (d : ascii) (fuel : nat) (f f' : TextIO.t)
    (r : result (list string)) :
  DictReader.next_row fuel d f = Some (r, f') ->
  TextIO.lines f' `suffix_of` TextIO.lines f /\ TextIO.closed f' = TextIO.closed f.
Proof.
  revert f. induction fuel as [|fuel IH]; intros f; simpl;
    destruct (csv.Reader_iternext d f) as [[[|c row]|e] f''] eqn:Hn;
    apply Reader_iternext_suffix in Hn as [Hs Hc]; try done.
  - by intros [= <- <-].
  - by intros [= <- <-].
  - intros [Hs' Hc']%IH. split; [by etrans|congruence].
  - by intros [= <- <-].
  - by intros [= <- <-].
Qed.

(** X12: advancing never rewinds: whatever it returns, the reader
    afterwards differs only in its stream, whose lines are a suffix of the
    lines before, and which is closed exactly if it was; when a record is
    returned at least one line has been used up. *)
Theorem next_moves_forward (self self' : DataclassReader.t) (r : result instance) :
  DataclassReader.__next__ self = (r, self') ->
  self' = DataclassReader.set_fin self (DataclassReader._fin self')
  /\ TextIO.lines (DataclassReader._fin self') `suffix_of` TextIO.lines (DataclassReader._fin self)
  /\ TextIO.closed (DataclassReader._fin self') = TextIO.closed (DataclassReader._fin self)
  /\ (forall record, r = Ok record ->
        length (TextIO.lines (DataclassReader._fin self'))
        < length (TextIO.lines (DataclassReader._fin self))).
Proof.
  intros Hnext. split; [|split; [|split]].
  - revert Hnext. unfold DataclassReader.__next__.
    destruct (DictReader.next _ _) as [[row|e] f']; by intros [= _ <-].
  - revert Hnext. unfold DataclassReader.__next__, DictReader.next.
    destruct (DictReader.next_row _ _ _) as [[[row|e] f']|] eqn:Hrow.
    + intros [= _ <-]. simpl. by apply next_row_suffix in Hrow as [? _].
    + intros [= _ <-]. simpl. by apply next_row_suffix in Hrow as [? _].
    + by intros [= _ <-].
  - revert Hnext. unfold DataclassReader.__next__, DictReader.next.
    destruct (DictReader.next_row _ _ _) as [[[row|e] f']|] eqn:Hrow.
    + intros [= _ <-]. simpl. by apply next_row_suffix in Hrow as [_ ?].
    + intros [= _ <-]. simpl. by apply next_row_suffix in Hrow as [_ ?].
    + by intros [= _ <-].
  - intros record ->. by eapply next_shorter.
Qed.

Lemma next_moves_forward_witness :
  [row_line Str.TAB ["x"; "2"]]
    `suffix_of` [row_line Str.TAB ["abc"; "1"]; row_line Str.TAB ["x"; "2"]].
Proof.
  destruct (next_moves_forward
              (reader_at FakeDataclass
                 [row_line Str.TAB ["abc"; "1"]; row_line Str.TAB ["x"; "2"]] false)
              (reader_at FakeDataclass [row_line Str.TAB ["x"; "2"]] false)
              (Ok {| cls := "FakeDataclass";
                     attrs := [("foo", VStr "abc"); ("bar", VInt 1)] |}))
    as (_ & H & _).
  - reflexivity.
  - exact H.
Defined.

(** ** The iteration *)

Lemma iterate_bound (fuel : nat) (self self' : DataclassReader.t)
    (rows : list instance) (e : ending) :
  DataclassReader.iterate fuel self = Some (rows, e, self') ->
  length rows + length (TextIO.lines (DataclassReader._fin self'))
  <= length (TextIO.lines (DataclassReader._fin self)).
Proof.
  revert self rows. induction fuel as [|fuel IH]; intros self rows; [done|].
  simpl. destruct (DataclassReader.__next__ self) as [[record|ex] s1] eqn:Hn.
  - destruct (DataclassReader.iterate fuel s1) as [[[rows' e'] s2]|] eqn:Hit; [|done].
    intros [= <- <- <-]. apply IH in Hit. apply next_shorter in Hn. simpl. lia.
  - assert (length (TextIO.lines (DataclassReader._fin s1))
            <= length (TextIO.lines (DataclassReader._fin self))) as Hle.
    { revert Hn. unfold DataclassReader.__next__, DictReader.next.
      destruct (DictReader.next_row _ _ _) as [[[row|e'] f']|] eqn:Hrow.
      - intros [= _ <-]. simpl. apply next_row_suffix in Hrow as [Hs _].
        by apply suffix_length.
      - intros [= _ <-]. simpl. apply next_row_suffix in Hrow as [Hs _].
        by apply suffix_length.
      - by intros [= _ <-]. }
    destruct ex; intros [= <- <- <-]; simpl; lia.
Qed.

(** X13: iterating a reader always comes to an end: with more advances
    allowed than the stream has lines left, the iteration stops by itself,
    and it returns at most as many records as lines were read. *)
Theorem iterate_terminates (fuel : nat) (self : DataclassReader.t) :
  length (TextIO.lines (DataclassReader._fin self)) < fuel ->
  exists rows e self',
    DataclassReader.iterate fuel self = Some (rows, e, self')
    /\ length rows + length (TextIO.lines (DataclassReader._fin self'))
       <= length (TextIO.lines (DataclassReader._fin self)).
Proof.
  intros Hfuel. destruct (iterate_enough fuel self Hfuel) as [[[rows e] self'] Hit].
  exists rows, e, self'. split; [done|]. by eapply iterate_bound.
Qed.

Lemma iterate_terminates_witness :
  exists rows e self',
    DataclassReader.iterate 3
      (reader_at FakeDataclass
         [row_line Str.TAB ["abc"; "1"]; row_line Str.TAB ["x"; "2"]] false)
    = Some (rows, e, self')
    /\ length rows + length (TextIO.lines (DataclassReader._fin self')) <= 2.
Proof.
  apply (iterate_terminates 3
           (reader_at FakeDataclass
              [row_line Str.TAB ["abc"; "1"]; row_line Str.TAB ["x"; "2"]] false)).
  simpl. lia.
Defined.

(** X14: leaving the scope closes the stream and changes nothing else;
    doing so twice is the same as once; and iterating afterwards returns
    no record and fails at once with the closed-file [ValueError], however
    many rows were left. *)
Theorem iterate_after_exit (fuel : nat) (self : DataclassReader.t) :
  0 < fuel ->
  DataclassReader.__exit__ (DataclassReader.__exit__ self) = DataclassReader.__exit__ self
  /\ TextIO.lines (DataclassReader._fin (DataclassReader.__exit__ self))
     = TextIO.lines (DataclassReader._fin self)
  /\ DataclassReader._header (DataclassReader.__exit__ self) = DataclassReader._header self
  /\ DataclassReader.iterate fuel (DataclassReader.__exit__ self)
     = Some ([], Failed (ValueError "I/O operation on closed file."),
             DataclassReader.__exit__ self).
Proof.
  intros Hfuel. repeat split.
  destruct fuel as [|fuel]; [lia|]. simpl.
  by rewrite next_at_end by (by left).
Qed.

Lemma iterate_after_exit_witness :
  DataclassReader.iterate 5
    (DataclassReader.__exit__
       (reader_at FakeDataclass [row_line Str.TAB ["abc"; "1"]] false))
  = Some ([], Failed (ValueError "I/O operation on closed file."),
          reader_at FakeDataclass [row_line Str.TAB ["abc"; "1"]] true).
Proof.
  destruct (iterate_after_exit 5
              (reader_at FakeDataclass [row_line Str.TAB ["abc"; "1"]] false))
    as (_ & _ & _ & H).
  - lia.
  - exact H.
Defined.

(** ** Quoted cells *)

Section QuotedRows.

Variable d : ascii.
Hypothesis d_usable : usable_delimiter d = true.

Lemma usable_inv : csv.is_newline d = false /\ Ascii.eqb d csv.quotechar = false.
Proof.
  unfold usable_delimiter, not_newline in d_usable.
  apply andb_true_iff in d_usable as [H1 H2].
  by rewrite !negb_true_iff in *.
Qed.

Lemma step_quote_open (fs : list string) :
  csv.parse_process_char d (csv.mkParser csv.START_FIELD fs EmptyString)
    (Some csv.quotechar)
  = Ok (csv.mkParser csv.IN_QUOTED_FIELD fs EmptyString).
Proof. reflexivity. Qed.

Lemma step_in_quoted (fs : list string) (f : string) (c : ascii) :
  Ascii.eqb c csv.quotechar = false ->
  (N.of_nat (String.length f) < csv.field_limit)%N ->
  csv.parse_process_char d (csv.mkParser csv.IN_QUOTED_FIELD fs f) (Some c)
  = Ok (csv.mkParser csv.IN_QUOTED_FIELD fs (f +:+ String c EmptyString)).
Proof.
  intros Hc Hlen. unfold csv.parse_process_char. simpl. rewrite Hc.
  unfold csv.parse_add_char. simpl. by rewrite (proj2 (N.leb_gt _ _) Hlen).
Qed.

Lemma step_doubled_quote (fs : list string) (f : string) :
  (N.of_nat (String.length f) < csv.field_limit)%N ->
  rbind (csv.parse_process_char d (csv.mkParser csv.IN_QUOTED_FIELD fs f)
           (Some csv.quotechar))
        (fun p => csv.parse_process_char d p (Some csv.quotechar))
  = Ok (csv.mkParser csv.IN_QUOTED_FIELD fs (f +:+ String csv.quotechar EmptyString)).
Proof.
  intros Hlen. unfold csv.parse_process_char. simpl.
  unfold csv.parse_add_char. simpl. by rewrite (proj2 (N.leb_gt _ _) Hlen).
Qed.

Lemma step_quote_close (fs : list string) (f : string) :
  csv.parse_process_char d (csv.mkParser csv.IN_QUOTED_FIELD fs f) (Some csv.quotechar)
  = Ok (csv.mkParser csv.QUOTE_IN_QUOTED_FIELD fs f).
Proof. reflexivity. Qed.

Lemma step_delimiter_end (st : csv.ParserState) (fs : list string) (f : string) :
  field_end st ->
  csv.parse_process_char d (csv.mkParser st fs f) (Some d)
  = Ok (csv.mkParser csv.START_FIELD (fs ++ [f]) EmptyString).
Proof.
  destruct usable_inv as [Hn Hq].
  intros [-> | [-> | ->]]; unfold csv.parse_process_char; simpl;
    by rewrite ?Hn, ?Hq, Ascii.eqb_refl.
Qed.

Lemma step_line_feed_end (st : csv.ParserState) (fs : list string) (f : string) :
  field_end st ->
  csv.parse_process_char d (csv.mkParser st fs f) (Some Str.LF)
  = Ok (csv.mkParser csv.EAT_CRNL (fs ++ [f]) EmptyString).
Proof.
  destruct usable_inv as [Hn Hq].
  intros [-> | [-> | ->]]; [done|done|].
  assert (Ascii.eqb Str.LF d = false) as Hlf.
  { apply Ascii.eqb_neq. intros <-. done. }
  unfold csv.parse_process_char. cbn [csv.state].
  change (Ascii.eqb Str.LF csv.quotechar) with false. cbv iota.
  rewrite Hlf. reflexivity.
Qed.

(** Inside quotes, the doubled body is collected as the body. *)
Lemma process_quoted_body (body : string) (fs : list string) (f : string) :
  (N.of_nat (String.length f + String.length body) <= csv.field_limit)%N ->
  csv.process_line d (csv.mkParser csv.IN_QUOTED_FIELD fs f) (double_quotes body)
  = Ok (csv.mkParser csv.IN_QUOTED_FIELD fs (f +:+ body)).
Proof.
  revert f. induction body as [|c body IH]; intros f Hlen.
  - by rewrite sapp_nil_r.
  - simpl in Hlen. simpl double_quotes.
    destruct (Ascii.eqb_spec c csv.quotechar) as [->|Hne].
    + change (csv.process_line d ?p (String ?a (String ?b ?s)))
        with (rbind (rbind (csv.parse_process_char d p (Some a))
                           (fun p' => csv.parse_process_char d p' (Some b)))
                    (fun p' => csv.process_line d p' s)) at 1.
      * rewrite step_doubled_quote by lia. simpl.
        rewrite IH; [by rewrite sapp_snoc_cons|]. rewrite length_snoc. lia.
    + simpl. rewrite step_in_quoted; [|by apply Ascii.eqb_neq|lia]. simpl.
      rewrite IH; [by rewrite sapp_snoc_cons|]. rewrite length_snoc. lia.
Qed.

(** A readable cell, read from the start of a field, leaves the reader at
    the end of a field holding the body. *)
Lemma process_written_cell (cell : bool * string) (fs : list string) :
  readable_cell d cell = true ->
  exists st, field_end st
    /\ csv.process_line d (csv.mkParser csv.START_FIELD fs EmptyString) (written cell)
       = Ok (csv.mkParser st fs cell.2).
Proof.
  destruct cell as [[] body]; unfold readable_cell, written; simpl; intros Hcell.
  - apply andb_true_iff in Hcell as [_ Hlen%N.leb_le].
    exists csv.QUOTE_IN_QUOTED_FIELD. split; [unfold field_end; auto|].
    change (csv.set_state _ csv.IN_QUOTED_FIELD)
      with (csv.mkParser csv.IN_QUOTED_FIELD fs EmptyString).
    rewrite process_line_app, process_quoted_body by (simpl; lia).
    reflexivity.
  - destruct (process_cell d body fs Hcell) as (st & [-> | ->] & Hrun);
      eexists; (split; [|exact Hrun]); unfold field_end; auto.
Qed.

Lemma process_written_row (cells : list (bool * string)) (fs : list string) :
  cells <> [] ->
  Forall (fun c => readable_cell d c = true) cells ->
  rbind (csv.process_line d (csv.mkParser csv.START_FIELD fs EmptyString)
           (Str.join (String d EmptyString) (written <$> cells) +:+ DataclassReader.nl))
        (fun p => csv.parse_process_char d p None)
  = Ok (csv.mkParser csv.START_RECORD (fs ++ cells.*2) EmptyString).
Proof.
  intros Hne Hall. revert fs. induction Hall as [|x l Hx Hl IH]; intros fs; [done|].
  destruct (process_written_cell x fs Hx) as (st & Hst & Hrun).
  destruct l as [|y l].
  - simpl. rewrite process_line_app, Hrun. simpl.
    rewrite step_line_feed_end by done. reflexivity.
  - rewrite !fmap_cons, join_cons, !app_assoc_s, process_line_app, Hrun. simpl.
    rewrite step_delimiter_end by done. simpl.
    rewrite <- fmap_cons, IH by done. by rewrite <- List.app_assoc.
Qed.

Lemma written_row_first_char (cells : list (bool * string)) :
  Forall (fun c => readable_cell d c = true) cells ->
  cells <> [] -> cells <> [(false, EmptyString)] ->
  exists c s, Str.join (String d EmptyString) (written <$> cells) +:+ DataclassReader.nl
              = String c s
              /\ csv.is_newline c = false.
Proof.
  destruct usable_inv as [Hn _].
  intros Hall Hne Hne'. destruct cells as [|[q body] l]; [done|].
  destruct q.
  - exists csv.quotechar. destruct l; eexists; (split; [reflexivity|done]).
  - destruct body as [|c body].
    + destruct l as [|y l]; [done|]. exists d. eexists. split; [reflexivity|done].
    + exists c. inversion Hall as [|? ? Hx _]; subst.
      unfold readable_cell in Hx. simpl in Hx.
      apply andb_true_iff in Hx as [Hx _]. simpl in Hx.
      apply andb_true_iff in Hx as [Hc _].
      apply plain_not_newline, negb_true_iff in Hc.
      destruct l; eexists; (split; [reflexivity|done]).
Qed.

Lemma next_row_written (fuel : nat) (cells : list (bool * string)) (rest : list string) :
  Forall (fun c => readable_cell d c = true) cells ->
  cells <> [] -> cells <> [(false, EmptyString)] ->
  DictReader.next_row fuel d
    {| TextIO.lines :=
         (Str.join (String d EmptyString) (written <$> cells) +:+ DataclassReader.nl) :: rest;
       TextIO.closed := false |}
  = Some (Ok cells.*2, {| TextIO.lines := rest; TextIO.closed := false |}).
Proof.
  intros Hall Hne Hne'.
  destruct (written_row_first_char cells Hall Hne Hne') as (c & s & Hline & Hc).
  pose proof (process_written_row cells [] Hne Hall) as Hrun.
  assert (csv.Reader_iternext d
            {| TextIO.lines :=
                 (Str.join (String d EmptyString) (written <$> cells)
                  +:+ DataclassReader.nl) :: rest;
               TextIO.closed := false |}
          = (Ok cells.*2, {| TextIO.lines := rest; TextIO.closed := false |})) as Hnext.
  { unfold csv.Reader_iternext. simpl. unfold csv.parse_reset.
    rewrite Hline in *. rewrite (process_line_start_record d) by done.
    by rewrite Hrun. }
  destruct fuel; simpl; rewrite Hnext; by destruct cells.
Qed.

End QuotedRows.

(** X15: a data row whose cells are written plain or in quotes, with the
    quotes of a quoted body doubled, is decoded from the bodies of its
    cells: the row reader removes the enclosing quotes and undoes the
    doubling, and a quoted body may hold the delimiter. *)
Theorem next_quoted_row (self : DataclassReader.t) (d : ascii)
    (cells : list (bool * string)) (rest : list string) :
  usable_delimiter d = true ->
  bound self d ->
  DataclassReader._fin self
  = {| TextIO.lines := row_line d (written <$> cells) :: rest; TextIO.closed := false |} ->
  Forall (fun c => readable_cell d c = true) cells ->
  cells <> [(false, EmptyString)] ->
  length (fields (DataclassReader.dataclass_type self)) = length cells ->
  length cells <> 0 ->
  DataclassReader.__next__ self
  = (decode_cells (DataclassReader.dataclass_type self) cells.*2,
     DataclassReader.set_fin self {| TextIO.lines := rest; TextIO.closed := false |}).
Proof.
  intros Hd (Hnames & Hdelim & Hnd) Hfin Hall Hne' Hlen Hne.
  apply next_of_cells; try done.
  - rewrite Hfin, Hdelim. unfold row_line. apply next_row_written; try done.
    by destruct cells.
  - rewrite length_fmap. lia.
Qed.

Lemma next_quoted_row_witness :
  DataclassReader.__next__
    (reader_at FakeQuoted
       [row_line Str.TAB [quoted "fake"; quoted ("A " +:+ DataclassReader.tab +:+ "fake "
                                                  +:+ quoted (quoted "object"))]] false)
  = (Ok {| cls := "FakeDataclass";
           attrs := [("id", VStr "fake");
                     ("title", VStr ("A " +:+ DataclassReader.tab +:+ "fake "
                                     +:+ quoted "object"))] |},
     reader_at FakeQuoted [] false).
Proof.
  apply (next_quoted_row
           (reader_at FakeQuoted
              [row_line Str.TAB [quoted "fake"; quoted ("A " +:+ DataclassReader.tab +:+ "fake "
                                                         +:+ quoted (quoted "object"))]] false)
           Str.TAB
           [(true, "fake");
            (true, "A " +:+ DataclassReader.tab +:+ "fake " +:+ quoted "object")] []).
  - reflexivity.
  - split; [reflexivity|]. split; [reflexivity|].
    apply (bool_decide_unpack _). vm_compute. exact I.
  - reflexivity.
  - repeat constructor.
  - discriminate.
  - reflexivity.
  - simpl. lia.
Defined.

(** * Reading a well-formed file *)

(** ** The lines of the file *)

Lemma readlines_go_last (l cur : string) :
  all_chars not_newline l = true ->
  cur +:+ l <> EmptyString ->
  TextIO.readlines_go l false cur = [cur +:+ l].
Proof.
  revert cur. induction l as [|c l IH]; intros cur Hl Hne.
  - rewrite sapp_nil_r in *. simpl. by destruct cur.
  - simpl in Hl. apply andb_true_iff in Hl as [Hc Hl].
    unfold not_newline, csv.is_newline in Hc.
    apply negb_true_iff, orb_false_iff in Hc as [Hlf Hcr].
    simpl. rewrite Hlf, Hcr. rewrite IH; [by rewrite sapp_snoc_cons|done|].
    rewrite sapp_snoc_cons. by destruct cur.
Qed.

Lemma readlines_go_preface (pre : list string) (rest : string) :
  Forall (fun l => all_chars not_newline l = true) pre ->
  TextIO.readlines_go (file_of_lines pre +:+ rest) false EmptyString
  = ((fun l => l +:+ DataclassReader.nl) <$> pre)
    ++ TextIO.readlines_go rest false EmptyString.
Proof.
  induction 1 as [|l ls Hl _ IH]; [reflexivity|].
  simpl file_of_lines. rewrite !app_assoc_s.
  unfold DataclassReader.nl at 1. rewrite sapp_cons, sapp_nil_l.
  rewrite readlines_go_line by done. by rewrite IH, sapp_nil_l.
Qed.

Lemma readlines_go_body (body : list string) (final_newline : bool) :
  Forall (fun l => all_chars not_newline l = true /\ l <> EmptyString) body ->
  body <> [] ->
  TextIO.readlines_go (Str.join DataclassReader.nl body +:+ last_terminator final_newline)
    false EmptyString
  = lines_of body (last_terminator final_newline).
Proof.
  intros Hall Hne. induction Hall as [|x l [Hx Hxne] Hl IH]; [done|].
  destruct l as [|y l].
  - simpl. destruct final_newline; simpl.
    + unfold DataclassReader.nl. rewrite readlines_go_line by done. reflexivity.
    + rewrite sapp_nil_r. by rewrite readlines_go_last.
  - rewrite join_cons, !app_assoc_s.
    unfold DataclassReader.nl at 1. rewrite sapp_cons, sapp_nil_l.
    rewrite readlines_go_line by done. rewrite IH by done. reflexivity.
Qed.

Lemma readlines_file_text (pre body : list string) (final_newline : bool) :
  Forall (fun l => all_chars not_newline l = true) pre ->
  Forall (fun l => all_chars not_newline l = true /\ l <> EmptyString) body ->
  body <> [] ->
  TextIO.readlines (file_text pre body final_newline)
  = ((fun l => l +:+ DataclassReader.nl) <$> pre)
    ++ lines_of body (last_terminator final_newline).
Proof.
  intros Hpre Hbody Hne. unfold TextIO.readlines, file_text.
  rewrite readlines_go_preface by done. by rewrite readlines_go_body.
Qed.

(** ** Preface lines and the fieldname row, with or without terminator *)

Lemma blank_last_terminator (b : bool) : blank (last_terminator b) = true.
Proof. by destruct b. Qed.

Lemma lstrip_app (s t : string) :
  Str.lstrip (s +:+ t) = if blank s then Str.lstrip t else Str.lstrip s +:+ t.
Proof.
  unfold blank. induction s as [|c s IH]; [reflexivity|].
  rewrite sapp_cons. simpl. destruct (Str.isspace c); [apply IH|reflexivity].
Qed.

Lemma strip_app_blank (s t : string) :
  blank t = true -> Str.strip (s +:+ t) = Str.strip s.
Proof.
  intros Ht. unfold Str.strip. rewrite lstrip_app.
  destruct (blank s) eqn:Hs.
  - by rewrite (lstrip_blank t), (lstrip_blank s).
  - by rewrite rstrip_app_blank.
Qed.

Lemma prefix_nil (s : string) : String.prefix EmptyString s = true.
Proof. by destruct s. Qed.

Lemma prefix_app (p s t : string) :
  String.prefix p s = true -> String.prefix p (s +:+ t) = true.
Proof.
  revert s. induction p as [|a p IH]; intros s; [intros _; apply prefix_nil|].
  destruct s as [|b s]; [done|]. rewrite sapp_cons. simpl.
  destruct (ascii_dec a b); [apply IH|done].
Qed.

Lemma preface_line_app (cc l t : string) :
  blank t = true -> preface_line cc l -> preface_line cc (l +:+ t).
Proof.
  intros Ht [Hs|Hb].
  - left. by apply prefix_app.
  - right. unfold blank in *. by rewrite all_chars_app, Hb, Ht.
Qed.

Lemma header_line_not_preface (d : ascii) (names : list string) (cc t : string) :
  names <> [] ->
  Forall (fun n => field_name_ok d n = true) names ->
  Str.startswith (row_line d names) cc = false ->
  t = DataclassReader.nl \/ t = EmptyString ->
  ~ preface_line cc (Str.join (String d EmptyString) names +:+ t).
Proof.
  intros Hne Hok Hcc Ht [Hs|Hb].
  - unfold row_line, Str.startswith in *. destruct Ht as [-> | ->]; [congruence|].
    rewrite sapp_nil_r in Hs. apply (prefix_app _ _ DataclassReader.nl) in Hs. congruence.
  - destruct (header_first_char d names Hne Hok) as (c & s & Hh & Hc).
    rewrite Hh, sapp_cons in Hb. unfold blank in Hb. simpl in Hb. by rewrite Hc in Hb.
Qed.

Lemma header_line_strip (d : ascii) (names : list string) (t : string) :
  names <> [] ->
  Forall (fun n => field_name_ok d n = true) names ->
  blank t = true ->
  Str.strip (Str.join (String d EmptyString) names +:+ t)
  = Str.join (String d EmptyString) names.
Proof.
  intros Hne Hok Ht. rewrite strip_app_blank by done.
  rewrite <- (header_strip d names Hne Hok) at 2.
  by rewrite strip_app_blank.
Qed.

(** ** Rows of written cells, with or without terminator *)

Section WrittenRows.

Variable d : ascii.
Hypothesis d_usable : usable_delimiter d = true.

Lemma step_end_of_line (st : csv.ParserState) (fs : list string) (f : string) :
  field_end st ->
  csv.parse_process_char d (csv.mkParser st fs f) None
  = Ok (csv.mkParser csv.START_RECORD (fs ++ [f]) EmptyString).
Proof. by intros [-> | [-> | ->]]. Qed.

Lemma process_written_row_open (cells : list (bool * string)) (fs : list string) :
  cells <> [] ->
  Forall (fun c => readable_cell d c = true) cells ->
  rbind (csv.process_line d (csv.mkParser csv.START_FIELD fs EmptyString)
           (written_row d cells))
        (fun p => csv.parse_process_char d p None)
  = Ok (csv.mkParser csv.START_RECORD (fs ++ cells.*2) EmptyString).
Proof.
  unfold written_row.
  intros Hne Hall. revert fs. induction Hall as [|x l Hx Hl IH]; intros fs; [done|].
  destruct (process_written_cell d x fs Hx) as (st & Hst & Hrun).
  destruct l as [|y l].
  - simpl. rewrite Hrun. simpl. by rewrite step_end_of_line.
  - rewrite !fmap_cons, join_cons, process_line_app, Hrun. simpl.
    rewrite step_delimiter_end by done. simpl.
    rewrite <- fmap_cons, IH by done. by rewrite <- List.app_assoc.
Qed.

Lemma written_row_first (cells : list (bool * string)) :
  Forall (fun c => readable_cell d c = true) cells ->
  cells <> [] -> cells <> [(false, EmptyString)] ->
  exists c s, written_row d cells = String c s /\ csv.is_newline c = false.
Proof.
  intros Hall Hne Hne'.
  destruct (written_row_first_char d d_usable cells Hall Hne Hne') as (c & s & Hline & Hc).
  fold (written_row d cells) in Hline.
  destruct (written_row d cells) as [|c' s'].
  - rewrite sapp_nil_l in Hline. injection Hline as <- _. done.
  - rewrite sapp_cons in Hline. injection Hline as <- _. eauto.
Qed.

Lemma written_row_no_newline (cells : list (bool * string)) :
  Forall (fun c => readable_cell d c = true) cells ->
  all_chars not_newline (written_row d cells) = true.
Proof.
  intros Hall. destruct (usable_inv d d_usable) as [Hn _].
  apply all_chars_join; [unfold not_newline; by rewrite Hn|].
  apply Forall_fmap. eapply Forall_impl; [exact Hall|].
  intros [[] body]; unfold readable_cell, written; simpl.
  - intros [Hb _]%andb_true_iff.
    rewrite all_chars_app. simpl. rewrite andb_true_r.
    clear -Hb. induction body as [|c body IH]; [done|].
    simpl in *. apply andb_true_iff in Hb as [Hc Hb].
    destruct (Ascii.eqb c csv.quotechar); simpl; rewrite ?Hc; by apply IH.
  - intros [Hb _]%andb_true_iff.
    eapply all_chars_impl; [|exact Hb]. apply plain_not_newline.
Qed.

Lemma next_row_written_term (fuel : nat) (cells : list (bool * string))
    (t : string) (rest : list string) :
  Forall (fun c => readable_cell d c = true) cells ->
  cells <> [] -> cells <> [(false, EmptyString)] ->
  t = DataclassReader.nl \/ t = EmptyString ->
  DictReader.next_row fuel d
    {| TextIO.lines := (written_row d cells +:+ t) :: rest; TextIO.closed := false |}
  = Some (Ok cells.*2, {| TextIO.lines := rest; TextIO.closed := false |}).
Proof.
  intros Hall Hne Hne' [-> | ->].
  - by apply next_row_written.
  - rewrite sapp_nil_r.
    destruct (written_row_first cells Hall Hne Hne') as (c & s & Hline & Hc).
    pose proof (process_written_row_open cells [] Hne Hall) as Hrun.
    assert (csv.Reader_iternext d
              {| TextIO.lines := written_row d cells :: rest; TextIO.closed := false |}
            = (Ok cells.*2, {| TextIO.lines := rest; TextIO.closed := false |})) as Hnext.
    { unfold csv.Reader_iternext. simpl. unfold csv.parse_reset.
      rewrite Hline in *. rewrite (process_line_start_record d) by done.
      by rewrite Hrun. }
    destruct fuel; simpl; rewrite Hnext; by destruct cells.
Qed.

(** Iterating over well-formed rows decodes them one by one and ends
    when the lines run out. *)
Lemma iterate_written_rows (term : string) (rows : list (list (bool * string))) :
  term = DataclassReader.nl \/ term = EmptyString ->
  forall (self : DataclassReader.t) (records : list instance) (fuel : nat),
  bound self d ->
  DataclassReader._fin self
  = {| TextIO.lines := lines_of (written_row d <$> rows) term; TextIO.closed := false |} ->
  Forall (well_formed_row d (length (field_names (DataclassReader.dataclass_type self))))
         rows ->
  length (field_names (DataclassReader.dataclass_type self)) <> 0 ->
  mapM (decode_cells (DataclassReader.dataclass_type self))
       ((fun cells : list (bool * string) => cells.*2) <$> rows) = Ok records ->
  length rows < fuel ->
  DataclassReader.iterate fuel self
  = Some (records, Exhausted,
          DataclassReader.set_fin self {| TextIO.lines := []; TextIO.closed := false |}).
Proof.
  intros Hterm. induction rows as [|cells rows IH];
    intros self records fuel Hb Hfin Hrows Hn Hdec Hfuel.
  - destruct fuel as [|fuel]; [lia|]. simpl in *. injection Hdec as <-.
    rewrite next_at_end by (right; by rewrite Hfin).
    rewrite Hfin. simpl. by rewrite <- Hfin, set_fin_same.
  - destruct fuel as [|fuel]; [simpl in Hfuel; lia|].
    apply Forall_cons in Hrows as [(Hcells & Hne' & Hlen) Hrows].
    rewrite fmap_cons in Hdec. simpl in Hdec.
    destruct (decode_cells _ cells.*2) as [record|] eqn:Hcells'; [|done]. simpl in Hdec.
    destruct (mapM _ _) as [records'|] eqn:Hrest; [|done]. simpl in Hdec.
    injection Hdec as <-.
    rewrite fmap_cons in Hfin. simpl in Hfin.
    destruct Hb as (Hnames & Hdelim & Hnd).
    assert (cells <> []) as Hne by (intros ->; simpl in Hlen; lia).
    destruct (next_of_cells self cells.*2
                {| TextIO.lines := lines_of (written_row d <$> rows) term;
                   TextIO.closed := false |}) as [_ Hadv]; try done.
    + rewrite Hfin, Hdelim. apply next_row_written_term; try done.
      destruct (written_row d <$> rows); [done|by left].
    + rewrite length_fmap. unfold field_names in Hlen. rewrite length_fmap in Hlen. lia.
    + simpl DataclassReader.iterate. rewrite Hadv, Hcells'.
      rewrite (IH _ records' fuel); try done.
      simpl in Hfuel. lia.
Qed.

End WrittenRows.

(** C1: a well-formed file: preface lines (blank or beginning with the
    comment prefix), then the fieldname row, equal to the field names of
    the record type joined by the delimiter, then data rows of one cell
    per field, each cell plain or enclosed in quotes; the last line ends
    with a line feed or not. The constructor succeeds, the header holds
    the stripped preface lines and the field names, and the iteration
    returns, in file order and one per row, the records whose fields are
    the declared types applied to the cells; it then ends. *)
Theorem read_well_formed_file (fs : gmap string fs_entry) (path : string)
    (dc : dataclass) (d : ascii) (header_comment_char : string)
    (pre : list string) (rows : list (list (bool * string))) (final_newline : bool)
    (records : list instance) :
  let names := field_names dc in
  fs !! path
  = Some (RegularFile true
            (file_text pre (Str.join (String d EmptyString) names
                            :: (written_row d <$> rows)) final_newline)) ->
  usable_delimiter d = true ->
  names <> [] ->
  NoDup names ->
  Forall (fun n => field_name_ok d n = true) names ->
  Forall (fun l => all_chars not_newline l = true /\ preface_line header_comment_char l)
         pre ->
  Str.startswith (row_line d names) header_comment_char = false ->
  Forall (well_formed_row d (length names)) rows ->
  mapM (decode_cells dc) ((fun cells : list (bool * string) => cells.*2) <$> rows)
  = Ok records ->
  exists r,
    DataclassReader.__init__ fs path (Dataclass dc) (String d EmptyString) header_comment_char
    = Ok r
    /\ DataclassReader._header r = {| preface := Str.strip <$> pre; fieldnames := names |}
    /\ length records = length rows
    /\ forall fuel, length rows < fuel ->
         exists r', DataclassReader.iterate fuel r = Some (records, Exhausted, r').
Proof.
  intros names Hfs Hd Hne Hnd Hnames Hpre Hcc Hrows Hdec.
  set (term := last_terminator final_newline).
  assert (term = DataclassReader.nl \/ term = EmptyString) as Hterm.
  { unfold term. destruct final_newline; auto. }
  set (t0 := match written_row d <$> rows with [] => term | _ => DataclassReader.nl end).
  assert (t0 = DataclassReader.nl \/ t0 = EmptyString) as Ht0.
  { unfold t0. destruct (written_row d <$> rows); auto. }
  assert (blank t0 = true) as Hblank by (by destruct Ht0 as [-> | ->]).
  set (fin' := {| TextIO.lines := lines_of (written_row d <$> rows) term;
                  TextIO.closed := false |}).
  assert (DataclassReader._get_header (String d EmptyString) header_comment_char
            (TextIO.of_contents
               (file_text pre (Str.join (String d EmptyString) names
                               :: (written_row d <$> rows)) final_newline))
          = (Ok (Some {| preface := Str.strip <$> pre; fieldnames := names |}), fin')) as Hget.
  { unfold TextIO.of_contents. rewrite readlines_file_text.
    - simpl lines_of. fold term. fold t0.
      rewrite (get_header_at _ _ _ _ _ names).
      + assert (Str.strip <$> ((fun l => l +:+ DataclassReader.nl) <$> pre)
                = Str.strip <$> pre) as ->; [|done].
        rewrite <- list_fmap_compose. apply list_fmap_ext.
        intros i l _. simpl. by apply strip_app_blank.
      + apply Forall_fmap. eapply Forall_impl; [exact Hpre|].
        intros l [_ Hl]. simpl. by apply preface_line_app.
      + by apply header_line_not_preface.
      + rewrite header_line_strip by done. by apply header_split.
    - eapply Forall_impl; [exact Hpre|]. by intros l [? _].
    - constructor.
      + split; [by apply header_no_newline|]. by apply (header_rstrip d names).
      + apply Forall_fmap. eapply Forall_impl; [exact Hrows|].
        intros cells (Hcells & Hne' & Hlen). simpl. split.
        * by apply written_row_no_newline.
        * assert (cells <> []) as Hcne.
          { intros ->. simpl in Hlen. destruct names; done. }
          destruct (written_row_first d Hd cells Hcells Hcne Hne') as (c & s & -> & _).
          done.
    - done. }
  eexists. split; [|split; [|split]].
  - unfold DataclassReader.__init__, assert_file_is_readable, path_open.
    rewrite Hfs. cbn [rbind]. rewrite Hget.
    cbn [rbind fieldnames assert_dataclass_is_valid].
    rewrite bool_decide_false by (intros Hneq; by apply Hneq).
    reflexivity.
  - reflexivity.
  - apply mapM_length in Hdec. by rewrite length_fmap in Hdec.
  - intros fuel Hfuel. eexists.
    apply (iterate_written_rows d Hd term rows Hterm); try done.
    simpl. fold names. destruct names; [done|simpl; lia].
Qed.

Lemma read_well_formed_file_witness :
  exists r r',
    DataclassReader.__init__
      (single_file "test.txt"
         (file_text ["# note"; EmptyString]
            [tsv ["id"; "title"];
             tsv ["fake"; quoted ("A " +:+ DataclassReader.tab +:+ "fake "
                                  +:+ quoted (quoted "object"))];
             tsv [quoted "also_fake"; "Another fake object"]] false))
      "test.txt" (Dataclass FakeQuoted) DataclassReader.default_delimiter "#" = Ok r
    /\ DataclassReader._header r
       = {| preface := ["# note"; EmptyString]; fieldnames := ["id"; "title"] |}
    /\ DataclassReader.iterate 3 r
       = Some ([{| cls := "FakeDataclass";
                   attrs := [("id", VStr "fake");
                             ("title", VStr ("A " +:+ DataclassReader.tab +:+ "fake "
                                             +:+ quoted "object"))] |};
                {| cls := "FakeDataclass";
                   attrs := [("id", VStr "also_fake");
                             ("title", VStr "Another fake object")] |}],
               Exhausted, r').
Proof.
  destruct (read_well_formed_file
              (single_file "test.txt"
                 (file_text ["# note"; EmptyString]
                    [tsv ["id"; "title"];
                     tsv ["fake"; quoted ("A " +:+ DataclassReader.tab +:+ "fake "
                                          +:+ quoted (quoted "object"))];
                     tsv [quoted "also_fake"; "Another fake object"]] false))
              "test.txt" FakeQuoted Str.TAB "#"
              ["# note"; EmptyString]
              [[(false, "fake");
                (true, "A " +:+ DataclassReader.tab +:+ "fake " +:+ quoted "object")];
               [(true, "also_fake"); (false, "Another fake object")]]
              false
              [{| cls := "FakeDataclass";
                  attrs := [("id", VStr "fake");
                            ("title", VStr ("A " +:+ DataclassReader.tab +:+ "fake "
                                            +:+ quoted "object"))] |};
               {| cls := "FakeDataclass";
                  attrs := [("id", VStr "also_fake");
                            ("title", VStr "Another fake object")] |}])
    as (r & Hinit & Hheader & _ & Hiter).
  - reflexivity.
  - reflexivity.
  - discriminate.
  - apply (bool_decide_unpack _). vm_compute. exact I.
  - repeat constructor.
  - constructor; [split; [reflexivity|left; reflexivity]|].
    constructor; [split; [reflexivity|right; reflexivity]|]. constructor.
  - reflexivity.
  - constructor; [|constructor; [|constructor]];
      (split; [repeat constructor|split; [discriminate|reflexivity]]).
  - reflexivity.
  - destruct (Hiter 3) as [r' Hr']; [simpl; lia|].
    exists r, r'. split; [exact Hinit|]. split; [exact Hheader|exact Hr'].
Defined.
